(** * GENESIS video generation pipeline (motion-specs/generate_video.py)

    A shallow embedding of the pipeline's core: the specification loader,
    the video generator with its retry loop, the concatenation planner, the
    timeline visualizer and the orchestrator, followed by the properties the
    specification states about them.

    Conventions of the embedding.
    - A Python [str] is a [string]; its characters are read as the code
      points 0..255.
    - A Python [int] is a [Z].  A [float] the code computes and prints (the
      crossfade offsets) is a binary64 [float]; a float constant the code
      only carries along (0.2, 0.5, 7.5, the delays) is the decimal it is
      written as, a [Q], and so are the readings of the clock.
    - Effectful code lives in the monad [M]: a state monad over [World]
      (the clock, the log of effects) whose result is either a value or a
      raised exception.  The clock of the model moves in sleeps and
      requests only.  [print] is not modelled. *)

From Stdlib Require Import PrimFloat.
From Stdlib Require Uint63.
From Stdlib Require Import String Ascii List ZArith QArith Bool Lia Arith.
From Stdlib Require Import DecimalString.
From Stdlib Require Import Sorted Permutation RelationClasses.
From Stdlib Require OrdersEx.
Import ListNotations.

Local Open Scope list_scope.
Local Open Scope string_scope.
Set Warnings "-register-all,-inexact-float".

(* ================================================================== *)
(** * Python values and built-ins                                       *)
(* ================================================================== *)

Module Py.

(** The newline character of the source's string literals. *)
Definition nl : string := String (ascii_of_nat 10) EmptyString.

(** [str(n)] / [f"{n}"] for an [int]. *)
Definition str_of_Z (z : Z) : string := NilZero.string_of_int (Z.to_int z).

Definition str_of_nat (n : nat) : string := str_of_Z (Z.of_nat n).

(** The [float] an [int] becomes next to a float operand, for the
    [int]s below 2^63 (the length of any list is one): exact up to 2^53. *)
Definition float_of_nat (n : nat) : float :=
  PrimFloat.of_uint63 (Uint63.of_Z (Z.of_nat n)).

(** [s * n]: repetition; a count below one gives the empty string. *)
Fixpoint repeat_str (s : string) (n : nat) : string :=
  match n with
  | O => ""
  | S k => s ++ repeat_str s k
  end.

Definition str_mul (s : string) (n : Z) : string := repeat_str s (Z.to_nat n).

(** The format specification [:>w]: right-aligned in a field of width [w]. *)
Definition rjust (w : nat) (s : string) : string :=
  repeat_str " " (w - String.length s) ++ s.

(** The format specification [:02d] on a non-negative [int]. *)
Definition fmt_02d (n : nat) : string :=
  let d := str_of_nat n in
  repeat_str "0" (2 - String.length d) ++ d.

(** [str.lower] on the code points 0..255: A-Z and the Latin-1 capitals.
    On these one character becomes one character; beyond them [str.lower]
    can lengthen a string (U+0130 becomes two code points), so nothing
    below relies on the length of a lowered name. *)
Definition lower_char (c : ascii) : ascii :=
  let n := nat_of_ascii c in
  if ((65 <=? n) && (n <=? 90))%nat then ascii_of_nat (n + 32)
  else if ((192 <=? n) && (n <=? 222) && negb (n =? 215))%nat
       then ascii_of_nat (n + 32)
  else c.

Fixpoint lower (s : string) : string :=
  match s with
  | EmptyString => EmptyString
  | String c r => String (lower_char c) (lower r)
  end.

(** [s.replace(a, b)] for one-character [a] and [b]. *)
Fixpoint replace_char (a b : ascii) (s : string) : string :=
  match s with
  | EmptyString => EmptyString
  | String c r => String (if Ascii.eqb c a then b else c) (replace_char a b r)
  end.

(** [s.split(sep)[0]]: the part of [s] before the first [sep]
    (all of [s] when there is none). *)
Fixpoint split_head (sep : ascii) (s : string) : string :=
  match s with
  | EmptyString => EmptyString
  | String c r => if Ascii.eqb c sep then EmptyString
                  else String c (split_head sep r)
  end.

(** [s[:n]]. *)
Definition str_prefix (n : nat) (s : string) : string := String.substring 0 n s.

(** The values [json.load] yields and [json.dump] accepts. *)
Inductive pyval : Type :=
| PNone
| PBool (b : bool)
| PInt (z : Z)
| PReal (q : Q)
| PStr (s : string)
| PList (l : list pyval)
| PDict (d : list (string * pyval)).

(** A [dict] with string keys, in insertion order. *)
Definition dict (V : Type) : Type := list (string * V).

Fixpoint dict_lookup {V : Type} (k : string) (d : dict V) : option V :=
  match d with
  | [] => None
  | (k', v) :: r => if String.eqb k k' then Some v else dict_lookup k r
  end.

(** [d.get(k, default)]. *)
Definition dict_get {V : Type} (d : dict V) (k : string) (default : V) : V :=
  match dict_lookup k d with
  | Some v => v
  | None => default
  end.

Definition dict_keys {V : Type} (d : dict V) : list string := map fst d.

(** Exceptions: the class and [str(e)].  Every class below derives from
    [Exception]; interrupts and task cancellation are outside the model. *)
Inductive exn_class : Type :=
| KeyError
| IndexError
| ValueError
| AttributeError
| HTTPStatusError
| TransportError
| JSONDecodeError
| OSError.

Record exn : Type := mk_exn { exn_cls : exn_class; exn_msg : string }.

Definition exn_class_eqb (a b : exn_class) : bool :=
  match a, b with
  | KeyError, KeyError | IndexError, IndexError | ValueError, ValueError
  | AttributeError, AttributeError | HTTPStatusError, HTTPStatusError
  | TransportError, TransportError | JSONDecodeError, JSONDecodeError
  | OSError, OSError => true
  | _, _ => false
  end.

(** [isinstance(e, cls)] for the flat class list above. *)
Definition isinstance (e : exn) (c : exn_class) : bool :=
  exn_class_eqb (exn_cls e) c.

(** The outcome of running Python code: a value or a raised exception. *)
Inductive res (A : Type) : Type :=
| Ok (a : A)
| Raise (e : exn).
Arguments Ok {A} a.
Arguments Raise {A} e.

Definition res_bind {A B : Type} (c : res A) (k : A -> res B) : res B :=
  match c with
  | Ok a => k a
  | Raise e => Raise e
  end.

(** Running a loop body over a list, stopping at the first exception. *)
Fixpoint res_map {A B : Type} (f : A -> res B) (l : list A) : res (list B) :=
  match l with
  | [] => Ok []
  | a :: r =>
      res_bind (f a) (fun b => res_bind (res_map f r) (fun bs => Ok (b :: bs)))
  end.

(** [range(start, stop, step)] for a positive step. *)
Definition range3 (start stop step : nat) : list nat :=
  map (fun k => start + k * step)%nat
      (seq 0 ((stop - start + step - 1) / step)).

(** A [set] of strings: a list without repetitions. *)
Definition set_add (x : string) (s : list string) : list string :=
  if existsb (String.eqb x) s then s else x :: s.

(** [s.update(l)]. *)
Definition set_update (s l : list string) : list string :=
  fold_left (fun acc x => set_add x acc) l s.

Fixpoint insert_sorted (x : string) (l : list string) : list string :=
  match l with
  | [] => [x]
  | y :: r => if String.leb x y then x :: y :: r else y :: insert_sorted x r
  end.

(** [sorted(s)] on strings: ascending by code point. *)
Definition sorted (s : list string) : list string :=
  fold_right insert_sorted [] s.

(** [s[i]] on a [str]. *)
Definition str_index (s : string) (i : nat) : res ascii :=
  match String.get i s with
  | Some c => Ok c
  | None => Raise (mk_exn IndexError "string index out of range")
  end.

Definition is_digit (c : ascii) : bool :=
  let n := nat_of_ascii c in ((48 <=? n) && (n <=? 57))%nat.

(** [int(c)] on a one-character [str]: among the code points 0..255 only
    the digits 0-9 are accepted.  The message is the interpreter's for a
    printable character other than an apostrophe or a backslash. *)
Definition int_of_char (c : ascii) : res Z :=
  if is_digit c then Ok (Z.of_nat (nat_of_ascii c - 48))
  else Raise (mk_exn ValueError
                ("invalid literal for int() with base 10: '"
                   ++ String c "'")).

(** [d[k]] on a [dict]. *)
Definition dict_item {V : Type} (d : dict V) (k : string) : res V :=
  match dict_lookup k d with
  | Some v => Ok v
  | None => Raise (mk_exn KeyError ("'" ++ k ++ "'"))
  end.

End Py.
Import Py.

Declare Scope res_scope.
Delimit Scope res_scope with res.
Notation "x <-- c ;; k" := (res_bind c (fun x => k))
  (at level 61, c at next level, right associativity) : res_scope.
Notation "c ;;; k" := (res_bind c (fun _ => k))
  (at level 61, right associativity) : res_scope.


(* ================================================================== *)
(** * Configuration and data structures                                *)
(* ================================================================== *)

(** [pathlib.Path], kept symbolic: how a path was built from its parts. *)
Inductive Path : Type :=
| PathOf (s : string)
| PathDiv (p : Path) (name : string)          (* p / name *)
| PathWithSuffix (p : Path) (suffix : string) (* p.with_suffix(suffix) *).

Module Config.
(** Global configuration for video generation. *)
Record t : Type := mk {
  api_endpoint : string;
  api_key : string;
  output_dir : Path;
  temp_dir : Path;
  resolution : Z * Z;
  fps : Z;
  segment_duration : Z;
  quality : string;
  format : string;
  codec : string;
  guidance_scale : Q;
  num_inference_steps : Z;
  seed : option Z;
  max_retries : Z;
  retry_delay : Q
}.

(** The dataclass defaults, for a given credential and output directory. *)
Definition default (key : string) (out : Path) : t := {|
  api_endpoint := "https://api.veo.google.com/v1";
  api_key := key;
  output_dir := out;
  temp_dir := PathOf "temp";
  resolution := (1920, 1080)%Z;
  fps := 60;
  segment_duration := 8;
  quality := "high";
  format := "mp4";
  codec := "h264";
  guidance_scale := 7.5;
  num_inference_steps := 50;
  seed := None;
  max_retries := 3;
  retry_delay := 5
|}.
End Config.

Module Segment.
(** A single video segment. *)
Record t : Type := mk {
  id : string;
  name : string;
  duration_seconds : Z;
  prompt : string;
  negative_prompt : string;
  entry_frame : dict pyval;
  exit_frame : dict pyval;
  key_moments : list (dict string);
  audio_description : string;
  motion_keywords : list string;
  continuity_requirements : dict pyval
}.

Definition output_filename (self : t) : string :=
  id self ++ "_" ++ replace_char " " "_" (lower (name self)) ++ ".mp4".
End Segment.

Module GenerationResult.
(** Result of a segment generation. *)
Record t : Type := mk {
  segment_id : string;
  success : bool;
  output_path : option Path;
  generation_time : Q;
  error_message : option string;
  metadata : dict pyval
}.
End GenerationResult.


(* ================================================================== *)
(** * Spec loader                                                       *)
(* ================================================================== *)

Module PromptData.
(** One entry of the prompt chain's ["prompts"] list: a JSON object in
    which each of the known keys is present ([Some]) or absent ([None]). *)
Record t : Type := mk {
  segment_id : option string;
  segment_name : option string;
  duration_seconds : option Z;
  prompt : option string;
  negative_prompt : option string;
  entry_frame : option (dict pyval);
  exit_frame : option (dict pyval);
  key_moments : option (list (dict string));
  audio_description : option string;
  motion_keywords : option (list string);
  continuity_requirements : option (dict pyval)
}.
End PromptData.

(** [SpecLoader.prompt_chain] once [load_all] has run: the two top-level
    keys the pipeline reads, each present or absent.  A missing file leaves
    both absent. *)
Record PromptChain : Type := mk_chain {
  prompts : option (list PromptData.t);
  global_context : option pyval
}.

(** [prompt_data[k]] for a required key. *)
Definition required {A : Type} (field : option A) (k : string) : res A :=
  match field with
  | Some v => Ok v
  | None => Raise (mk_exn KeyError ("'" ++ k ++ "'"))
  end.

(** [prompt_data.get(k, default)]. *)
Definition optional {A : Type} (field : option A) (default : A) : A :=
  match field with
  | Some v => v
  | None => default
  end.

(** The body of the loop of [get_segments]: one [Segment(...)] call, its
    arguments evaluated left to right. *)
Definition segment_of_prompt_data (prompt_data : PromptData.t) : res Segment.t :=
  (id <-- required (PromptData.segment_id prompt_data) "segment_id" ;;
   name <-- required (PromptData.segment_name prompt_data) "segment_name" ;;
   duration <-- required (PromptData.duration_seconds prompt_data)
                  "duration_seconds" ;;
   prompt <-- required (PromptData.prompt prompt_data) "prompt" ;;
   Ok {| Segment.id := id;
         Segment.name := name;
         Segment.duration_seconds := duration;
         Segment.prompt := prompt;
         Segment.negative_prompt :=
           optional (PromptData.negative_prompt prompt_data) "";
         Segment.entry_frame :=
           optional (PromptData.entry_frame prompt_data) [];
         Segment.exit_frame :=
           optional (PromptData.exit_frame prompt_data) [];
         Segment.key_moments :=
           optional (PromptData.key_moments prompt_data) [];
         Segment.audio_description :=
           optional (PromptData.audio_description prompt_data) "";
         Segment.motion_keywords :=
           optional (PromptData.motion_keywords prompt_data) [];
         Segment.continuity_requirements :=
           optional (PromptData.continuity_requirements prompt_data) [] |})%res.

(** Parse and return all segments. *)
Definition get_segments (prompt_chain : PromptChain) : res (list Segment.t) :=
  res_map segment_of_prompt_data (optional (prompts prompt_chain) []).

(** Get global context for all generations. *)
Definition get_global_context (prompt_chain : PromptChain) : pyval :=
  optional (global_context prompt_chain) (PDict []).

(* ================================================================== *)
(** * Timeline visualizer                                               *)
(* ================================================================== *)

Definition rule (c : string) : string := repeat_str c 80.

(** The time ruler (0-56 seconds). *)
Definition ruler : string :=
  fold_left (fun r i => r ++ rjust 3 (str_of_nat i) ++ "s" ++ repeat_str " " 5)
            (range3 0 57 8) "Time:  ".

(** The first loop's body: the bar of one segment. *)
Definition segment_bar (seg : Segment.t) : res (list string) :=
  (c0 <-- str_index (Segment.id seg) 0 ;;
   start_sec <-- (if Ascii.eqb c0 "S"
                  then (c <-- str_index (split_head "_" (Segment.id seg)) 1 ;;
                        n <-- int_of_char c ;;
                        Ok (n * 8 - 8)%Z)
                  else Ok 0%Z) ;;
   c1 <-- str_index (Segment.id seg) 1 ;;
   n <-- int_of_char c1 ;;
   let seg_num := (n - 1)%Z in
   let bar := str_mul " " (seg_num * 8) ++ "[" ++ repeat_str "=" 6 ++ "]" in
   Ok [ "S" ++ str_of_Z (seg_num + 1) ++ ": " ++ bar;
        "    " ++ Segment.name seg;
        "" ])%res.

(** One line of the key events: [moment['time']] is read before
    [moment['action']].  The values are [str], as [Segment.key_moments]
    declares them, so the format specification [:>8] applies. *)
Definition moment_line (moment : dict string) : res string :=
  (time <-- dict_item moment "time" ;;
   action <-- dict_item moment "action" ;;
   Ok ("  " ++ rjust 8 time ++ " : " ++ action))%res.

(** The second loop's body: the header and the first three key moments. *)
Definition segment_events (seg : Segment.t) : res (list string) :=
  (ms <-- res_map moment_line (firstn 3 (Segment.key_moments seg)) ;;
   Ok ((nl ++ Segment.id seg ++ " - " ++ Segment.name seg ++ ":") :: ms))%res.

Definition all_keywords (segments : list Segment.t) : list string :=
  fold_left (fun acc seg => set_update acc (Segment.motion_keywords seg))
            segments [].

(** Generate ASCII timeline diagram. *)
Definition generate (segments : list Segment.t) : res string :=
  (bars <-- res_map segment_bar segments ;;
   events <-- res_map segment_events segments ;;
   let keywords_line := String.concat ", " (sorted (all_keywords segments)) in
   Ok (String.concat nl
         ([ rule "=";
            "KAIZEN ELITE PORTFOLIO - MOTION TIMELINE";
            rule "=";
            "";
            ruler;
            ("       " ++ repeat_str "|" 7)%string;
            "" ]
          ++ concat bars
          ++ [ rule "-"; "KEY EVENTS:"; rule "-" ]
          ++ concat events
          ++ [ "";
               rule "-";
               "MOTION VOCABULARY:";
               rule "-";
               keywords_line;
               "";
               rule "=";
               ("Total Duration: 56 seconds | Segments: "
                  ++ str_of_nat (length segments)
                  ++ " | Resolution: 1920x1080")%string;
               rule "=" ])%list))%res.


(* ================================================================== *)
(** * Video concatenator: the encode command                            *)
(* ================================================================== *)

(** One [xfade] stage of the filter graph:
    [[in_a][in_b]xfade=transition=fade:duration=D:offset=O[out]].  The
    duration is the decimal written in the text; the offset is the
    binary64 value the script prints by [repr]. *)
Record XFade : Type := mk_xfade {
  in_a : string;
  in_b : string;
  transition : string;
  duration : Q;
  offset : float;
  out : string
}.

(** The emitted script, before it is laid out as text: the [-i] inputs,
    the stages joined by [;] in [-filter_complex], the [-map] label and
    the target.  The encoder options are constant. *)
Record FFmpegCommand : Type := mk_cmd {
  inputs : list Path;
  filter_complex : list XFade;
  final_label : string;
  encoder_options : string;
  cmd_output : Path
}.

(** The body of the loop over [range(n - 1)]. *)
Definition filter_part (i : nat) : XFade :=
  if (i =? 0)%nat then
    mk_xfade "0:v" "1:v" "fade" 0.2 7.8%float "v01"
  else
    let prev := if (1 <? i)%nat then "v" ++ fmt_02d (i - 1) ++ fmt_02d i
                else "v01" in
    let curr := "v" ++ fmt_02d i ++ fmt_02d (i + 1) in
    let offset := (7.8 + (float_of_nat i * 7.8))%float in
    mk_xfade prev (str_of_nat (i + 1) ++ ":v") "fade" 0.2 offset curr.

(** Generate FFmpeg command for concatenation. *)
Definition _generate_ffmpeg_command (segments : list Path) (output : Path)
  : FFmpegCommand :=
  let n := length segments in
  let filter_parts := map filter_part (seq 0 (n - 1)) in
  let final_label := if (2 <? n)%nat
                     then "v" ++ fmt_02d (n - 2) ++ fmt_02d (n - 1)
                     else "v01" in
  mk_cmd segments filter_parts final_label
         "-c:v libx264 -preset slow -crf 18 -pix_fmt yuv420p" output.


(* ================================================================== *)
(** * The world the pipeline runs in                                    *)
(* ================================================================== *)

(** The metadata record the simulator writes in place of a video. *)
Record SimMetadata : Type := mk_sim_metadata {
  sim_segment_id : string;
  sim_segment_name : string;
  sim_duration : Z;
  sim_prompt : string;
  sim_negative_prompt : string;
  sim_key_moments : list (dict string);
  sim_motion_keywords : list string;
  sim_generated_at : Q;
  sim_status : string
}.

(** The concatenation manifest. *)
Record Manifest : Type := mk_manifest {
  manifest_segments : list string;
  manifest_output : string;
  manifest_transition : string;
  transition_duration : Q;
  created_at : Q
}.

(** One entry of the report's ["results"] list. *)
Record ReportEntry : Type := mk_entry {
  entry_segment_id : string;
  entry_success : bool;
  entry_output_path : option string;
  entry_generation_time : Q;
  entry_error : option string;
  entry_metadata : dict pyval
}.

(** The summary report. *)
Record Report : Type := mk_report {
  project : string;
  generated_at : Q;
  total_segments : nat;
  successful : nat;
  failed : nat;
  total_generation_time : Q;
  results : list ReportEntry;
  coverage_matrix : dict Q
}.

(** What is written to a file, before [json.dump] or [f.write] lays it
    out as text. *)
Inductive FileContent : Type :=
| TextFile (text : string)
| MetadataFile (m : SimMetadata)
| ManifestFile (m : Manifest)
| ScriptFile (c : FFmpegCommand)
| ReportFile (r : Report).

(** The effects of a run, in the order they happen. *)
Inductive Event : Type :=
| Wrote (p : Path) (c : FileContent)
| Posted (url : string) (payload : dict pyval)
| Slept (seconds : Q)
| Closed.

(** The state a run threads: the clock read by [time.time()] and
    [datetime.now()], the number of requests sent so far, and the log. *)
Record World : Type := mk_world {
  now : Q;
  posts : nat;
  log : list Event
}.

(** What the service answers to a request, as [httpx] presents it. *)
Record Response : Type := mk_response {
  status_code : Z;
  status_text : string;    (* [str()] of the error [raise_for_status] builds *)
  json_body : res pyval    (* what [json()] returns or raises *)
}.

(** The surroundings of a run, fixed during it: what the [k]-th request
    meets (a response, or the exception [client.post] raises), how long
    it takes, and the exception [open(path, 'w')] raises, if any. *)
Record Env : Type := mk_env {
  service : nat -> res Response;
  latency : nat -> Q;
  open_error : Path -> option exn
}.

(** Code with effects: from a world to an outcome and the world after. *)
Definition M (A : Type) : Type := World -> res A * World.

Definition ret {A : Type} (a : A) : M A := fun w => (Ok a, w).

Definition bind {A B : Type} (c : M A) (k : A -> M B) : M B :=
  fun w => match c w with
           | (Ok a, w') => k a w'
           | (Raise e, w') => (Raise e, w')
           end.

Definition raise {A : Type} (e : exn) : M A := fun w => (Raise e, w).

(** Pure code that may raise, run inside [M]. *)
Definition lift {A : Type} (r : res A) : M A := fun w => (r, w).

(** [try: c  except cls as e: h e]: an exception the clause does not
    match goes on to the caller. *)
Definition try_except {A : Type} (c : M A) (matches : exn -> bool)
  (h : exn -> M A) : M A :=
  fun w => match c w with
           | (Ok a, w') => (Ok a, w')
           | (Raise e, w') => if matches e then h e w' else (Raise e, w')
           end.

(** [except Exception]: every modelled class is an [Exception]. *)
Definition Exception (e : exn) : bool := true.

Declare Scope M_scope.
Delimit Scope M_scope with M.
Notation "x <- c ;; k" := (bind c (fun x => k))
  (at level 61, c at next level, right associativity) : M_scope.
Notation "c ;; k" := (bind c (fun _ => k))
  (at level 61, right associativity) : M_scope.

Definition emit (e : Event) (w : World) : World :=
  mk_world (now w) (posts w) (log w ++ [e]).

(** [time.time()] and [datetime.now()]. *)
Definition time_time : M Q := fun w => (Ok (now w), w).

(** [await asyncio.sleep(d)]: a delay of zero or less returns at once. *)
Definition sleep (d : Q) : M unit :=
  fun w => (Ok tt, mk_world (now w + (if Qle_bool d 0 then 0 else d))%Q
                            (posts w) (log w ++ [Slept d])).

(** [with open(path, 'w') as f: ...] followed by the write. *)
Definition write_file (env : Env) (path : Path) (c : FileContent) : M unit :=
  fun w => match open_error env path with
           | Some e => (Raise e, w)
           | None => (Ok tt, emit (Wrote path c) w)
           end.

(** [await self.client.post(url, json=payload)]. *)
Definition client_post (env : Env) (url : string) (payload : dict pyval)
  : M Response :=
  fun w => (service env (posts w),
            mk_world (now w + latency env (posts w))%Q (S (posts w))
                     (log w ++ [Posted url payload])).

(** [response.raise_for_status()]: an [HTTPStatusError] unless 2xx. *)
Definition raise_for_status (r : Response) : M unit :=
  if ((200 <=? status_code r) && (status_code r <=? 299))%Z then ret tt
  else raise (mk_exn HTTPStatusError (status_text r)).

(** [response.json()]. *)
Definition response_json (r : Response) : M pyval :=
  lift (json_body r).

(** [await self.client.aclose()]. *)
Definition aclose : M unit := fun w => (Ok tt, emit Closed w).

(* ================================================================== *)
(** * Video generator, concatenator and orchestrator                    *)
(* ================================================================== *)

(** [VideoGenerator]: its configuration and whether [__init__] opened a
    client. *)
Record VideoGenerator : Type := mk_generator {
  config : Config.t;
  client : bool
}.

(** [VideoGenerator.__init__]: a client is opened when [httpx] was
    imported and an API key is configured. *)
Definition VideoGenerator_init (HAS_HTTPX : bool) (cfg : Config.t)
  : VideoGenerator :=
  mk_generator cfg (HAS_HTTPX && negb (Config.api_key cfg =? "")).

(** What [run] returns: the preview dictionary or the report. *)
Inductive RunResult : Type :=
| Preview (segments : nat)   (* {"status": "preview", "segments": n} *)
| Reported (r : Report).

Section Pipeline.

(** Library functions the pipeline calls and the model leaves open:
    [hashlib.md5(...).hexdigest()], [str()] of a float or a container,
    and [str()] of a path. *)
Variable md5_hex : string -> string.
Variable py_repr : pyval -> string.
Variable path_str : Path -> string.

Variable env : Env.

Definition prompt_hash (seg : Segment.t) : string :=
  str_prefix 8 (md5_hex (Segment.prompt seg)).

(** [type(v).__name__]. *)
Definition type_name (v : pyval) : string :=
  match v with
  | PNone => "NoneType"
  | PBool _ => "bool"
  | PInt _ => "int"
  | PReal _ => "float"
  | PStr _ => "str"
  | PList _ => "list"
  | PDict _ => "dict"
  end.

(** [global_context.get(k, '')]: only a [dict] has the method. *)
Definition context_get (global_context : pyval) (k : string) : res pyval :=
  match global_context with
  | PDict d => Ok (dict_get d k (PStr ""))
  | v => Raise (mk_exn AttributeError
                  ("'" ++ type_name v ++ "' object has no attribute 'get'"))
  end.

(** A value inside an f-string replacement field. *)
Definition py_format (v : pyval) : string :=
  match v with
  | PStr s => s
  | PInt z => str_of_Z z
  | PNone => "None"
  | PBool true => "True"
  | PBool false => "False"
  | v => py_repr v
  end.

(** Build enhanced prompt with global context. *)
Definition _build_enhanced_prompt (segment : Segment.t) (global_context : pyval)
  : res string :=
  (style <-- context_get global_context "style" ;;
   color_palette <-- context_get global_context "color_palette" ;;
   device <-- context_get global_context "device" ;;
   lighting <-- context_get global_context "lighting" ;;
   camera <-- context_get global_context "camera" ;;
   quality <-- context_get global_context "quality" ;;
   let context_prefix :=
     "Style: " ++ py_format style ++ nl ++
     "Color Palette: " ++ py_format color_palette ++ nl ++
     "Device: " ++ py_format device ++ nl ++
     "Lighting: " ++ py_format lighting ++ nl ++
     "Camera: " ++ py_format camera ++ nl ++
     "Quality: " ++ py_format quality ++ nl ++
     nl in
   Ok (context_prefix ++ Segment.prompt segment))%res.

(** The request payload of [_call_api]; [if self.config.seed:] tests the
    seed for truth. *)
Definition build_payload (cfg : Config.t) (segment : Segment.t) (prompt : string)
  : dict pyval :=
  let payload :=
    [ ("prompt", PStr prompt);
      ("negative_prompt", PStr (Segment.negative_prompt segment));
      ("duration", PInt (Segment.duration_seconds segment));
      ("resolution", PStr (str_of_Z (fst (Config.resolution cfg)) ++ "x"
                             ++ str_of_Z (snd (Config.resolution cfg))));
      ("fps", PInt (Config.fps cfg));
      ("guidance_scale", PReal (Config.guidance_scale cfg));
      ("num_inference_steps", PInt (Config.num_inference_steps cfg)) ] in
  match Config.seed cfg with
  | Some s => if (s =? 0)%Z then payload
              else (payload ++ [("seed", PInt s)])%list
  | None => payload
  end.

(** The loop [for attempt in range(self.config.max_retries)], with
    [remaining] iterations to go.  Falling off the loop returns [None]. *)
Fixpoint call_api_loop (cfg : Config.t) (payload : dict pyval)
  (remaining : nat) (attempt : Z) : M pyval :=
  match remaining with
  | O => ret PNone
  | S remaining' =>
      try_except
        (response <- client_post env
                       (Config.api_endpoint cfg ++ "/generate") payload ;;
         raise_for_status response ;;
         response_json response)%M
        (fun e => isinstance e HTTPStatusError)
        (fun e =>
           if (attempt <? Config.max_retries cfg - 1)%Z then
             (sleep (Config.retry_delay cfg) ;;
              call_api_loop cfg payload remaining' (attempt + 1)%Z)%M
           else raise e)
  end.

(** Make actual API call to video generation service. *)
Definition _call_api (self : VideoGenerator) (segment : Segment.t)
  (prompt : string) : M pyval :=
  let payload := build_payload (config self) segment prompt in
  call_api_loop (config self) payload
                (Z.to_nat (Config.max_retries (config self))) 0%Z.

(** Simulate video generation for testing. *)
Definition _simulate_generation (self : VideoGenerator) (segment : Segment.t)
  : M pyval :=
  (sleep 0.5 ;;
   let output_path := PathDiv (Config.output_dir (config self))
                              (Segment.output_filename segment) in
   let metadata_path := PathWithSuffix output_path ".json" in
   generated_at <- time_time ;;
   let metadata :=
     {| sim_segment_id := Segment.id segment;
        sim_segment_name := Segment.name segment;
        sim_duration := Segment.duration_seconds segment;
        sim_prompt := Segment.prompt segment;
        sim_negative_prompt := Segment.negative_prompt segment;
        sim_key_moments := Segment.key_moments segment;
        sim_motion_keywords := Segment.motion_keywords segment;
        sim_generated_at := generated_at;
        sim_status := "simulated" |} in
   write_file env metadata_path (MetadataFile metadata) ;;
   ret (PDict [ ("status", PStr "simulated");
                ("path", PStr (path_str metadata_path)) ]))%M.

(** Generate a single video segment.  The prints before the [try] are
    left out; the second of them evaluates [segment.prompt_hash], which
    encodes the prompt: on the strings of this model (code points 0..255)
    the encoding always succeeds. *)
Definition generate_segment (self : VideoGenerator) (segment : Segment.t)
  (global_context : pyval) : M GenerationResult.t :=
  (start_time <- time_time ;;
   enhanced_prompt <- lift (_build_enhanced_prompt segment global_context) ;;
   try_except
     (result <- (if client self && negb (Config.api_key (config self) =? "")
                 then _call_api self segment enhanced_prompt
                 else _simulate_generation self segment) ;;
      t <- time_time ;;
      ret {| GenerationResult.segment_id := Segment.id segment;
             GenerationResult.success := true;
             GenerationResult.output_path :=
               Some (PathDiv (Config.output_dir (config self))
                             (Segment.output_filename segment));
             GenerationResult.generation_time := (t - start_time)%Q;
             GenerationResult.error_message := None;
             GenerationResult.metadata :=
               [ ("prompt_hash", PStr (prompt_hash segment));
                 ("enhanced_prompt_length",
                   PInt (Z.of_nat (String.length enhanced_prompt)));
                 ("motion_keywords",
                   PList (map PStr (Segment.motion_keywords segment))) ] |})
     Exception
     (fun e =>
        t <- time_time ;;
        ret {| GenerationResult.segment_id := Segment.id segment;
               GenerationResult.success := false;
               GenerationResult.output_path := None;
               GenerationResult.generation_time := (t - start_time)%Q;
               GenerationResult.error_message := Some (exn_msg e);
               GenerationResult.metadata := [] |}))%M.

(** Concatenate video segments with crossfade transitions. *)
Definition concatenate (segment_paths : list Path) (output_path : Path)
  : M bool :=
  (created <- time_time ;;
   let manifest :=
     {| manifest_segments := map path_str segment_paths;
        manifest_output := path_str output_path;
        manifest_transition := "crossfade";
        transition_duration := 0.2;
        created_at := created |} in
   let manifest_path := PathWithSuffix output_path ".concat.json" in
   write_file env manifest_path (ManifestFile manifest) ;;
   let ffmpeg_cmd := _generate_ffmpeg_command segment_paths output_path in
   let cmd_path := PathWithSuffix output_path ".ffmpeg.sh" in
   write_file env cmd_path (ScriptFile ffmpeg_cmd) ;;
   ret true)%M.

(** The constant scorecard of the report. *)
Definition coverage : dict Q :=
  map (fun k => (k, 1.0%Q))
    [ "dimension_1_input_parsing"; "dimension_2_scene_composition";
      "dimension_3_design_tokens"; "dimension_4_flow_decomposition";
      "dimension_5_timeline_architecture";
      "dimension_6_component_specification"; "dimension_7_motion_tracks";
      "dimension_8_interaction_choreography"; "dimension_9_state_machines";
      "dimension_10_transition_systems"; "dimension_11_audio_design";
      "dimension_12_physics_parameters"; "dimension_13_micro_interactions";
      "dimension_14_accessibility_motion"; "dimension_15_platform_adaptation";
      "dimension_16_temporal_segmentation";
      "dimension_17_continuity_anchoring"; "dimension_18_prompt_generation" ].

Definition report_entry (r : GenerationResult.t) : ReportEntry :=
  {| entry_segment_id := GenerationResult.segment_id r;
     entry_success := GenerationResult.success r;
     entry_output_path := match GenerationResult.output_path r with
                          | Some p => Some (path_str p)
                          | None => None
                          end;
     entry_generation_time := GenerationResult.generation_time r;
     entry_error := GenerationResult.error_message r;
     entry_metadata := GenerationResult.metadata r |}.

(** Generate summary report. *)
Definition _generate_report (rs : list GenerationResult.t) : M Report :=
  (let successful := filter GenerationResult.success rs in
   let failed := filter (fun r => negb (GenerationResult.success r)) rs in
   generated <- time_time ;;
   ret {| project := "KAIZEN Elite Portfolio";
          generated_at := generated;
          total_segments := length rs;
          successful := length successful;
          failed := length failed;
          total_generation_time :=
            fold_left Qplus (map GenerationResult.generation_time rs) 0%Q;
          results := map report_entry rs;
          coverage_matrix := coverage |})%M.

(** The loop [for segment in segments] of [run]: the results and the
    paths of the successful ones, both in list order. *)
Fixpoint generate_all (generator : VideoGenerator) (global_context : pyval)
  (segments : list Segment.t)
  (rs : list GenerationResult.t) (successful_paths : list Path)
  : M (list GenerationResult.t * list Path) :=
  match segments with
  | [] => ret (rs, successful_paths)
  | segment :: rest =>
      (result <- generate_segment generator segment global_context ;;
       let rs' := (rs ++ [result])%list in
       let paths' :=
         match GenerationResult.success result,
               GenerationResult.output_path result with
         | true, Some p => (successful_paths ++ [p])%list
         | _, _ => successful_paths
         end in
       generate_all generator global_context rest rs' paths')%M
  end.

(** [s.id in segment_ids]. *)
Definition id_in (segment_ids : list string) (s : Segment.t) : bool :=
  existsb (String.eqb (Segment.id s)) segment_ids.

(** Run the generation pipeline.  [prompt_chain] is what [load_all] read;
    [segment_ids] is [None] or a list, filtering only when non-empty. *)
Definition run (generator : VideoGenerator) (prompt_chain : PromptChain)
  (segment_ids : option (list string)) (preview concat : bool)
  : M RunResult :=
  (loaded <- lift (get_segments prompt_chain) ;;
   let global_context := get_global_context prompt_chain in
   let segments :=
     match segment_ids with
     | Some (i :: ids) => filter (id_in (i :: ids)) loaded
     | _ => loaded
     end in
   timeline <- lift (generate segments) ;;
   let output_dir := Config.output_dir (config generator) in
   let timeline_path := PathDiv output_dir "timeline_visualization.txt" in
   write_file env timeline_path (TextFile timeline) ;;
   if preview then ret (Preview (length segments))
   else
     generated <- generate_all generator global_context segments [] [] ;;
     let rs := fst generated in
     let successful_paths := snd generated in
     (if concat && (1 <? length successful_paths)%nat
      then concatenate successful_paths
                       (PathDiv output_dir "kaizen_portfolio_final.mp4") ;;
           ret tt
      else ret tt) ;;
     report <- _generate_report rs ;;
     write_file env (PathDiv output_dir "generation_report.json")
                (ReportFile report) ;;
     (if client generator then aclose else ret tt) ;;
     ret (Reported report))%M.

(* ================================================================== *)
(** * Properties: the concatenation planner                             *)
(* ================================================================== *)

(** The stage the loop emits for boundary [i]. *)
Lemma filter_complex_nth (segments : list Path) (output : Path) (i : nat) :
  (i < length segments - 1)%nat ->
  nth_error (filter_complex (_generate_ffmpeg_command segments output)) i
  = Some (filter_part i).
Proof.
  intros Hi. unfold _generate_ffmpeg_command. simpl.
  rewrite nth_error_map, nth_error_seq.
  destruct (Nat.ltb_spec i (length segments - 1)) as [_ | Hge]; [reflexivity | lia].
Qed.

Lemma filter_complex_length (segments : list Path) (output : Path) :
  length (filter_complex (_generate_ffmpeg_command segments output))
  = (length segments - 1)%nat.
Proof.
  unfold _generate_ffmpeg_command. simpl.
  rewrite length_map, length_seq. reflexivity.
Qed.

(** The offset of stage [i] is the source's expression at [i], in
    binary64; at [i = 0] the literal of the first branch has that value. *)
Lemma filter_part_offset (i : nat) :
  offset (filter_part i) = (7.8 + float_of_nat i * 7.8)%float.
Proof.
  unfold filter_part.
  destruct (Nat.eqb_spec i 0) as [-> | Hi]; reflexivity.
Qed.

(** The offsets of the first six stages, as the script prints them. *)
Lemma first_offsets (n : nat) :
  map offset (firstn 6 (map filter_part (seq 0 n)))
  = firstn n [7.8; 15.6; 23.4; 31.2; 39.0; 46.8]%float.
Proof.
  destruct n as [| [| [| [| [| [| n]]]]]]; try reflexivity.
  cbn [seq map firstn]. destruct n; reflexivity.
Qed.

(** C1, as the code has it: for N >= 2 output paths the encode command has
    N - 1 crossfade stages, each of duration 0.2, and stage i starts at
    the binary64 value of 7.8 + i * 7.8; the first six offsets are printed
    as 7.8, 15.6, 23.4, 31.2, 39.0 and 46.8; for N = 2 there is exactly
    one stage, at offset 7.8. *)
Theorem C1_crossfade_offsets (segments : list Path) (output : Path) :
  (2 <= length segments)%nat ->
  let cmd := _generate_ffmpeg_command segments output in
  length (filter_complex cmd) = (length segments - 1)%nat
  /\ (forall i, (i <= length segments - 2)%nat ->
        exists stage,
          nth_error (filter_complex cmd) i = Some stage
          /\ offset stage = (7.8 + float_of_nat i * 7.8)%float
          /\ (duration stage == 0.2)%Q)
  /\ map offset (firstn 6 (filter_complex cmd))
     = firstn (length segments - 1) [7.8; 15.6; 23.4; 31.2; 39.0; 46.8]%float
  /\ (length segments = 2%nat ->
        exists stage, filter_complex cmd = [stage]
                      /\ offset stage = 7.8%float).
Proof.
  intros HN cmd. split; [apply filter_complex_length | split; [| split]].
  - intros i Hi. exists (filter_part i). split.
    + apply filter_complex_nth. lia.
    + split; [apply filter_part_offset |].
      unfold filter_part. destruct (i =? 0)%nat; reflexivity.
  - apply first_offsets.
  - intros H2. exists (filter_part 0). split; [| reflexivity].
    subst cmd. unfold _generate_ffmpeg_command. simpl. rewrite H2. reflexivity.
Qed.

(** C1 at three paths: the two stages' offsets. *)
Lemma C1_crossfade_offsets_witness :
  let cmd := _generate_ffmpeg_command
               [PathOf "a.mp4"; PathOf "b.mp4"; PathOf "c.mp4"]
               (PathOf "final.mp4") in
  length (filter_complex cmd) = 2%nat
  /\ (forall i, (i <= 1)%nat ->
        exists stage,
          nth_error (filter_complex cmd) i = Some stage
          /\ offset stage = (7.8 + float_of_nat i * 7.8)%float
          /\ (duration stage == 0.2)%Q)
  /\ map offset (firstn 6 (filter_complex cmd)) = [7.8; 15.6]%float.
Proof.
  destruct (C1_crossfade_offsets
              [PathOf "a.mp4"; PathOf "b.mp4"; PathOf "c.mp4"]
              (PathOf "final.mp4") (le_S _ _ (le_n 2)))
    as [Hlen [Hoff [Hfirst _]]].
  split; [exact Hlen | split; [exact Hoff | exact Hfirst]].
Defined.

(** C1 as stated fails at the second boundary: with three paths, stage 1
    starts at 15.6, which is neither 15.8 nor the binary64 value of
    (1 + 1) * 8 - 0.2. *)
Lemma C1_second_offset_counterexample :
  exists stage,
    nth_error (filter_complex
                 (_generate_ffmpeg_command
                    [PathOf "a.mp4"; PathOf "b.mp4"; PathOf "c.mp4"]
                    (PathOf "final.mp4"))) 1 = Some stage
    /\ PrimFloat.eqb (offset stage) 15.6%float = true
    /\ PrimFloat.eqb (offset stage) 15.8%float = false
    /\ PrimFloat.eqb (offset stage)
                     (float_of_nat (1 + 1) * 8 - 0.2)%float = false.
Proof.
  eexists. split; [reflexivity |]. repeat split.
Qed.

(** Where rounding shows: with eight paths the seventh stage starts at
    54.599999999999994, not at the double nearest to 7 * 7.8 = 54.6. *)
Remark seventh_offset_rounded :
  option_map offset
    (nth_error (filter_complex
                  (_generate_ffmpeg_command (repeat (PathOf "s.mp4") 8)
                                            (PathOf "final.mp4"))) 6)
  = Some 54.599999999999994%float
  /\ PrimFloat.eqb 54.599999999999994%float 54.6%float = false.
Proof. split; reflexivity. Qed.

(* ================================================================== *)
(** * Properties: the timeline visualizer                               *)
(* ================================================================== *)

Definition is_ok {A : Type} (r : res A) : bool :=
  match r with
  | Ok _ => true
  | Raise _ => false
  end.

Lemma is_ok_true {A : Type} (r : res A) :
  is_ok r = true <-> exists a, r = Ok a.
Proof.
  destruct r as [a | e]; simpl; split.
  - intros _. exists a. reflexivity.
  - reflexivity.
  - discriminate.
  - intros [a H]. discriminate H.
Qed.

Lemma is_ok_bind {A B : Type} (c : res A) (k : A -> res B) :
  is_ok (res_bind c k)
  = match c with Ok a => is_ok (k a) | Raise _ => false end.
Proof. destruct c; reflexivity. Qed.

Lemma forallb_ext {A : Type} (f g : A -> bool) :
  (forall a, f a = g a) -> forall l, forallb f l = forallb g l.
Proof.
  intros H l. induction l as [| a r IH]; simpl; [reflexivity |].
  rewrite H, IH. reflexivity.
Qed.

(** A loop runs to its end exactly when every iteration does. *)
Lemma is_ok_res_map {A B : Type} (f : A -> res B) (l : list A) :
  is_ok (res_map f l) = forallb (fun a => is_ok (f a)) l.
Proof.
  induction l as [| a r IH]; simpl; [reflexivity |].
  destruct (f a) as [b | e]; simpl; [| reflexivity].
  rewrite <- IH. destruct (res_map f r); reflexivity.
Qed.

(** The second character of the id is a decimal digit. *)
Definition digit_at_1 (s : string) : bool :=
  match String.get 1 s with
  | Some c => is_digit c
  | None => false
  end.

(** The key moment has both keys the visualizer reads. *)
Definition moment_ok (m : dict string) : bool :=
  match dict_lookup "time" m, dict_lookup "action" m with
  | Some _, Some _ => true
  | _, _ => false
  end.

(** The inputs the visualizer accepts. *)
Definition renderable (seg : Segment.t) : bool :=
  digit_at_1 (Segment.id seg)
  && forallb moment_ok (firstn 3 (Segment.key_moments seg)).

Lemma underscore_not_digit (c : ascii) :
  Ascii.eqb c "_" = true -> is_digit c = false.
Proof. intros H. apply Ascii.eqb_eq in H. subst c. reflexivity. Qed.

Lemma is_ok_int_of_char (c : ascii) : is_ok (int_of_char c) = is_digit c.
Proof. unfold int_of_char. destruct (is_digit c); reflexivity. Qed.

(** The bar of a segment is drawn exactly when its id has a digit in
    second place: the unused [start_sec] reads the same character. *)
Lemma is_ok_segment_bar (seg : Segment.t) :
  is_ok (segment_bar seg) = digit_at_1 (Segment.id seg).
Proof.
  unfold segment_bar, digit_at_1.
  destruct (Segment.id seg) as [| c0 [| c1 r]]; simpl.
  - reflexivity.
  - destruct (Ascii.eqb c0 "S"); [destruct (Ascii.eqb c0 "_") |]; reflexivity.
  - destruct (Ascii.eqb c0 "S") eqn:HS.
    + apply Ascii.eqb_eq in HS. subst c0. simpl.
      destruct (Ascii.eqb c1 "_") eqn:Hu; simpl.
      * rewrite (underscore_not_digit _ Hu). reflexivity.
      * unfold int_of_char. destruct (is_digit c1); reflexivity.
    + simpl. unfold int_of_char. destruct (is_digit c1); reflexivity.
Qed.

Lemma is_ok_moment_line (m : dict string) :
  is_ok (moment_line m) = moment_ok m.
Proof.
  unfold moment_line, moment_ok, dict_item.
  destruct (dict_lookup "time" m); simpl; [| reflexivity].
  destruct (dict_lookup "action" m); reflexivity.
Qed.

Lemma is_ok_segment_events (seg : Segment.t) :
  is_ok (segment_events seg)
  = forallb moment_ok (firstn 3 (Segment.key_moments seg)).
Proof.
  unfold segment_events. rewrite is_ok_bind.
  rewrite <- (forallb_ext _ _ is_ok_moment_line), <- is_ok_res_map.
  destruct (res_map moment_line _); reflexivity.
Qed.

Lemma forallb_andb {A : Type} (f g : A -> bool) (l : list A) :
  forallb (fun a => f a && g a) l = forallb f l && forallb g l.
Proof.
  induction l as [| a r IH]; simpl; [reflexivity |].
  rewrite IH. destruct (f a), (g a), (forallb f r); reflexivity.
Qed.

Lemma is_ok_generate (segments : list Segment.t) :
  is_ok (generate segments) = forallb renderable segments.
Proof.
  unfold generate, renderable. rewrite forallb_andb, is_ok_bind.
  rewrite <- (forallb_ext _ _ is_ok_segment_bar), <- is_ok_res_map.
  destruct (res_map segment_bar segments) as [bars | e]; simpl; [| reflexivity].
  rewrite is_ok_bind.
  rewrite <- (forallb_ext _ _ is_ok_segment_events), <- is_ok_res_map.
  destruct (res_map segment_events segments); reflexivity.
Qed.

(** C2, as the code has it: on segment records whose fields hold values
    of their declared types, the render returns a text whenever every
    segment's id has a decimal digit as its second character and each of
    its first three key moments has both a [time] and an [action],
    whatever the names and the motion keywords. *)
Theorem C2_generate_total_on_renderable (segments : list Segment.t) :
  forallb renderable segments = true ->
  exists text, generate segments = Ok text.
Proof.
  intros H. apply is_ok_true. rewrite is_ok_generate. exact H.
Qed.

(** C2 as stated fails: a segment whose id is ["intro"] makes the render
    raise [ValueError] at [int(seg.id[1])]. *)
Lemma C2_generate_raises_counterexample :
  generate [ Segment.mk "intro" "Intro" 8 "A slow fade in" "" [] [] [] "" [] [] ]
  = Raise (mk_exn ValueError "invalid literal for int() with base 10: 'n'").
Proof. reflexivity. Qed.

(* ================================================================== *)
(** * Properties: the spec loader                                       *)
(* ================================================================== *)

(** The first required key an entry lacks, in the order the loader reads
    them. *)
Definition missing_required (pd : PromptData.t) : option string :=
  match PromptData.segment_id pd, PromptData.segment_name pd,
        PromptData.duration_seconds pd, PromptData.prompt pd with
  | None, _, _, _ => Some "segment_id"
  | _, None, _, _ => Some "segment_name"
  | _, _, None, _ => Some "duration_seconds"
  | _, _, _, None => Some "prompt"
  | Some _, Some _, Some _, Some _ => None
  end.

(** The index of the first entry that lacks a required key, with the key. *)
Fixpoint first_missing (entries : list PromptData.t) : option (nat * string) :=
  match entries with
  | [] => None
  | pd :: rest =>
      match missing_required pd with
      | Some k => Some (0%nat, k)
      | None => match first_missing rest with
                | Some (i, k) => Some (S i, k)
                | None => None
                end
      end
  end.

(** [seg] carries the fields of [pd], an absent optional field read as
    the empty string, list or dictionary. *)
Definition loaded_from (pd : PromptData.t) (seg : Segment.t) : Prop :=
  PromptData.segment_id pd = Some (Segment.id seg)
  /\ PromptData.segment_name pd = Some (Segment.name seg)
  /\ PromptData.duration_seconds pd = Some (Segment.duration_seconds seg)
  /\ PromptData.prompt pd = Some (Segment.prompt seg)
  /\ Segment.negative_prompt seg
     = match PromptData.negative_prompt pd with Some v => v | None => "" end
  /\ Segment.entry_frame seg
     = match PromptData.entry_frame pd with Some v => v | None => [] end
  /\ Segment.exit_frame seg
     = match PromptData.exit_frame pd with Some v => v | None => [] end
  /\ Segment.key_moments seg
     = match PromptData.key_moments pd with Some v => v | None => [] end
  /\ Segment.audio_description seg
     = match PromptData.audio_description pd with Some v => v | None => "" end
  /\ Segment.motion_keywords seg
     = match PromptData.motion_keywords pd with Some v => v | None => [] end
  /\ Segment.continuity_requirements seg
     = match PromptData.continuity_requirements pd with
       | Some v => v
       | None => []
       end.

Definition key_error (k : string) : exn := mk_exn KeyError ("'" ++ k ++ "'").

Lemma segment_of_prompt_data_spec (pd : PromptData.t) :
  match missing_required pd with
  | Some k => segment_of_prompt_data pd = Raise (key_error k)
  | None => exists seg, segment_of_prompt_data pd = Ok seg /\ loaded_from pd seg
  end.
Proof.
  destruct pd as [i n d p np ef xf km ad mk cr].
  unfold missing_required, segment_of_prompt_data. simpl.
  destruct i as [i |]; [| reflexivity].
  destruct n as [n |]; [| reflexivity].
  destruct d as [d |]; [| reflexivity].
  destruct p as [p |]; [| reflexivity].
  simpl. eexists. split; [reflexivity |].
  unfold loaded_from, optional. simpl. repeat split.
Qed.

(** C4, as the code has it: when some entry lacks a required field the
    loader raises the [KeyError] of the first missing key (read in the
    order segment_id, segment_name, duration_seconds, prompt) of the first
    such entry, an error that names the key and not the entry; when every
    entry has its required fields, the segments are returned in order,
    absent optional fields being empty strings, lists and dictionaries. *)
Theorem C4_get_segments_required_fields
  (entries : list PromptData.t) (gc : option pyval) :
  match first_missing entries with
  | Some (i, k) =>
      get_segments (mk_chain (Some entries) gc) = Raise (key_error k)
  | None =>
      exists segments,
        get_segments (mk_chain (Some entries) gc) = Ok segments
        /\ Forall2 loaded_from entries segments
  end.
Proof.
  unfold get_segments. simpl.
  induction entries as [| pd rest IH]; simpl.
  - exists []. split; [reflexivity | constructor].
  - pose proof (segment_of_prompt_data_spec pd) as Hpd.
    destruct (missing_required pd) as [k |].
    + rewrite Hpd. reflexivity.
    + destruct Hpd as [seg [Hseg Hl]]. rewrite Hseg. simpl.
      destruct (first_missing rest) as [[i k] |].
      * rewrite IH. reflexivity.
      * destruct IH as [segs [Hsegs HF]]. rewrite Hsegs. simpl.
        exists (seg :: segs). split; [reflexivity | constructor; assumption].
Qed.

Definition entry_without_id : PromptData.t :=
  PromptData.mk None (Some "Boot") (Some 8%Z) (Some "A screen lights up")
                None None None None None None None.

Definition entry_complete : PromptData.t :=
  PromptData.mk (Some "S1_boot") (Some "Boot") (Some 8%Z)
                (Some "A screen lights up") None None None None None None None.

(** C4 as stated fails: the error is a [KeyError] carrying the key, and it
    is the same error whether the offending entry is the first or the
    second, so it does not identify the entry index. *)
Lemma C4_error_without_index_counterexample :
  first_missing [entry_without_id] = Some (0%nat, "segment_id")
  /\ first_missing [entry_complete; entry_without_id]
     = Some (1%nat, "segment_id")
  /\ get_segments (mk_chain (Some [entry_without_id]) None)
     = Raise (mk_exn KeyError "'segment_id'")
  /\ get_segments (mk_chain (Some [entry_complete; entry_without_id]) None)
     = Raise (mk_exn KeyError "'segment_id'").
Proof. repeat split. Qed.

(* ================================================================== *)
(** * Properties: the video generator                                   *)
(* ================================================================== *)

(** The rendering of one context field: the value under [k], or the
    empty string when the key is absent. *)
Definition context_field (d : dict pyval) (k : string) : string :=
  py_format (dict_get d k (PStr "")).

Lemma append_assoc (a b c : string) : (a ++ b) ++ c = a ++ (b ++ c).
Proof. induction a as [| x a IH]; simpl; [reflexivity | rewrite IH; reflexivity]. Qed.

(** On a mapping the prompt is always built. *)
Lemma build_enhanced_prompt_dict (segment : Segment.t) (d : dict pyval) :
  exists p, _build_enhanced_prompt segment (PDict d) = Ok p.
Proof. eexists. unfold _build_enhanced_prompt. cbn [context_get res_bind]. reflexivity. Qed.

(** The text the specification gives a context field: the string the
    mapping holds under the key, and the empty string when the key is
    missing.  It is written without the code's own formatting. *)
Definition context_text (d : dict pyval) (k s : string) : Prop :=
  dict_lookup k d = Some (PStr s) \/ (dict_lookup k d = None /\ s = "").

Lemma context_field_text (d : dict pyval) (k s : string) :
  context_text d k s -> context_field d k = s.
Proof.
  unfold context_text, context_field, dict_get.
  intros [H | [H Hs]]; rewrite H; [reflexivity | subst s; reflexivity].
Qed.

Lemma build_enhanced_prompt_fields (segment : Segment.t) (d : dict pyval) :
  _build_enhanced_prompt segment (PDict d)
  = Ok (String.concat nl
          [ "Style: " ++ context_field d "style";
            "Color Palette: " ++ context_field d "color_palette";
            "Device: " ++ context_field d "device";
            "Lighting: " ++ context_field d "lighting";
            "Camera: " ++ context_field d "camera";
            "Quality: " ++ context_field d "quality";
            "";
            Segment.prompt segment ]).
Proof.
  unfold _build_enhanced_prompt, context_field.
  cbn [context_get res_bind String.concat].
  rewrite !append_assoc. reflexivity.
Qed.

(** C7: the enhanced prompt is determined by the segment's prompt and the
    six context fields alone.  When each of style, color_palette, device,
    lighting, camera and quality is a string of the mapping, or is
    missing and then read as the empty string, the enhanced prompt is the
    six labelled lines in that order, each label followed by the field's
    string, then an empty line, then the raw prompt. *)
Theorem C7_build_enhanced_prompt (segment : Segment.t) (d : dict pyval)
  (style color_palette device lighting camera quality : string) :
  context_text d "style" style ->
  context_text d "color_palette" color_palette ->
  context_text d "device" device ->
  context_text d "lighting" lighting ->
  context_text d "camera" camera ->
  context_text d "quality" quality ->
  _build_enhanced_prompt segment (PDict d)
  = Ok ("Style: " ++ style ++ nl ++
        "Color Palette: " ++ color_palette ++ nl ++
        "Device: " ++ device ++ nl ++
        "Lighting: " ++ lighting ++ nl ++
        "Camera: " ++ camera ++ nl ++
        "Quality: " ++ quality ++ nl ++
        nl ++
        Segment.prompt segment).
Proof.
  intros Hs Hp Hd Hl Hc Hq.
  rewrite build_enhanced_prompt_fields.
  rewrite (context_field_text _ _ _ Hs), (context_field_text _ _ _ Hp),
          (context_field_text _ _ _ Hd), (context_field_text _ _ _ Hl),
          (context_field_text _ _ _ Hc), (context_field_text _ _ _ Hq).
  reflexivity.
Qed.

(** The seven keys every payload has, in insertion order. *)
Definition payload_keys : list string :=
  [ "prompt"; "negative_prompt"; "duration"; "resolution"; "fps";
    "guidance_scale"; "num_inference_steps" ].

(** The payload has the seven fixed keys, the resolution as ["WxH"], and
    the seed key exactly when the seed is an integer other than zero. *)
Lemma build_payload_keys (cfg : Config.t) (segment : Segment.t) (p : string) :
  (forall k, In k payload_keys -> In k (dict_keys (build_payload cfg segment p)))
  /\ dict_lookup "resolution" (build_payload cfg segment p)
     = Some (PStr (str_of_Z (fst (Config.resolution cfg)) ++ "x"
                     ++ str_of_Z (snd (Config.resolution cfg))))
  /\ (In "seed" (dict_keys (build_payload cfg segment p))
      <-> exists s, Config.seed cfg = Some s /\ s <> 0%Z).
Proof.
  unfold build_payload, dict_keys.
  destruct (Config.seed cfg) as [s |]; [destruct (Z.eqb_spec s 0) |];
    (split; [| split]); simpl; try reflexivity.
  - intros k Hk. exact Hk.
  - split.
    + intros H. repeat (destruct H as [H | H]; [discriminate H |]). contradiction.
    + intros [s' [Hs' Hne]]. congruence.
  - intros k Hk. simpl in Hk. intuition.
  - split; [intros _; exists s; auto | intros _; intuition].
  - intros k Hk. exact Hk.
  - split.
    + intros H. repeat (destruct H as [H | H]; [discriminate H |]). contradiction.
    + intros [s' [Hs' _]]. discriminate Hs'.
Qed.

(** Steps 2 to 4 of [generate_segment]: the guarded call, live or
    simulated. *)
Definition dispatch (self : VideoGenerator) (segment : Segment.t)
  (enhanced_prompt : string) : M pyval :=
  if client self && negb (Config.api_key (config self) =? "")
  then _call_api self segment enhanced_prompt
  else _simulate_generation self segment.

(** The two results [generate_segment] builds. *)
Definition success_result (self : VideoGenerator) (segment : Segment.t)
  (enhanced_prompt : string) (elapsed : Q) : GenerationResult.t :=
  {| GenerationResult.segment_id := Segment.id segment;
     GenerationResult.success := true;
     GenerationResult.output_path :=
       Some (PathDiv (Config.output_dir (config self))
                     (Segment.output_filename segment));
     GenerationResult.generation_time := elapsed;
     GenerationResult.error_message := None;
     GenerationResult.metadata :=
       [ ("prompt_hash", PStr (prompt_hash segment));
         ("enhanced_prompt_length",
           PInt (Z.of_nat (String.length enhanced_prompt)));
         ("motion_keywords",
           PList (map PStr (Segment.motion_keywords segment))) ] |}.

Definition failure_result (segment : Segment.t) (e : exn) (elapsed : Q)
  : GenerationResult.t :=
  {| GenerationResult.segment_id := Segment.id segment;
     GenerationResult.success := false;
     GenerationResult.output_path := None;
     GenerationResult.generation_time := elapsed;
     GenerationResult.error_message := Some (exn_msg e);
     GenerationResult.metadata := [] |}.

(** [generate_segment] by cases: the prompt is built outside the [try];
    what the guarded call raises becomes a failure result. *)
Lemma generate_segment_cases (self : VideoGenerator) (segment : Segment.t)
  (global_context : pyval) (w : World) :
  generate_segment self segment global_context w
  = match _build_enhanced_prompt segment global_context with
    | Raise e => (Raise e, w)
    | Ok p =>
        match dispatch self segment p w with
        | (Ok _, w1) =>
            (Ok (success_result self segment p (now w1 - now w)%Q), w1)
        | (Raise e, w1) =>
            (Ok (failure_result segment e (now w1 - now w)%Q), w1)
        end
    end.
Proof.
  unfold generate_segment, bind, time_time, lift, try_except, Exception, ret.
  destruct (_build_enhanced_prompt segment global_context) as [p | e];
    [| reflexivity].
  fold (dispatch self segment p).
  destruct (dispatch self segment p w) as [[v | e] w1]; reflexivity.
Qed.

(** C10: the result [generate_segment] returns carries the id of the
    segment it was given, in the success and in the failure branch. *)
Theorem C10_result_segment_id
  (self : VideoGenerator) (segment : Segment.t) (global_context : pyval)
  (w w' : World) (r : GenerationResult.t) :
  generate_segment self segment global_context w = (Ok r, w') ->
  GenerationResult.segment_id r = Segment.id segment.
Proof.
  rewrite generate_segment_cases.
  destruct (_build_enhanced_prompt segment global_context) as [p | e];
    [| discriminate].
  destruct (dispatch self segment p w) as [[v | e] w1];
    intros H; inversion H; reflexivity.
Qed.

(* ------------------------------------------------------------------ *)
(** ** The retry loop                                                   *)

(** What one pass through the [try] body of [_call_api] yields when it is
    the [j]-th request of the run: the decoded body of a 2xx response, or
    the exception of [client.post], [raise_for_status] or [json]. *)
Definition attempt_result (j : nat) : res pyval :=
  match service env j with
  | Raise e => Raise e
  | Ok response =>
      if ((200 <=? status_code response) && (status_code response <=? 299))%Z
      then json_body response
      else Raise (mk_exn HTTPStatusError (status_text response))
  end.

(** The [j]-th request ends in the exception the loop retries on. *)
Definition status_failure (j : nat) : bool :=
  match attempt_result j with
  | Ok _ => false
  | Raise e => isinstance e HTTPStatusError
  end.

(** The world after one request. *)
Definition posted (url : string) (payload : dict pyval) (w : World) : World :=
  mk_world (now w + latency env (posts w))%Q (S (posts w))
           (log w ++ [Posted url payload]).

(** The world after one [asyncio.sleep]. *)
Definition slept (d : Q) (w : World) : World :=
  mk_world (now w + (if Qle_bool d 0 then 0 else d))%Q (posts w)
           (log w ++ [Slept d]).

(** The world after [k] failed requests, each followed by the delay. *)
Fixpoint retried (url : string) (payload : dict pyval) (d : Q) (k : nat)
  (w : World) : World :=
  match k with
  | O => w
  | S k' => retried url payload d k' (slept d (posted url payload w))
  end.

(** [k] rounds of a request and a sleep. *)
Fixpoint retry_log (url : string) (payload : dict pyval) (d : Q) (k : nat)
  : list Event :=
  match k with
  | O => []
  | S k' => Posted url payload :: Slept d :: retry_log url payload d k'
  end.

Lemma retried_posts url payload d k w :
  posts (retried url payload d k w) = (posts w + k)%nat.
Proof.
  revert w. induction k as [| k IH]; intros w; simpl; [lia |].
  rewrite IH. simpl. lia.
Qed.

Lemma retried_log url payload d k w :
  log (retried url payload d k w) = (log w ++ retry_log url payload d k)%list.
Proof.
  revert w. induction k as [| k IH]; intros w; simpl.
  - rewrite app_nil_r. reflexivity.
  - rewrite IH. simpl. rewrite <- !app_assoc. reflexivity.
Qed.

(** One pass through the [try] body. *)
Lemma try_body_eq (url : string) (payload : dict pyval) (w : World) :
  (response <- client_post env url payload ;;
   raise_for_status response ;;
   response_json response)%M w
  = (attempt_result (posts w), posted url payload w).
Proof.
  unfold bind, client_post, attempt_result, posted.
  destruct (service env (posts w)) as [response | e]; [| reflexivity].
  unfold raise_for_status.
  destruct ((200 <=? status_code response) && (status_code response <=? 299))%Z;
    [| reflexivity].
  unfold ret, response_json, lift. reflexivity.
Qed.

(** One iteration of the loop. *)
Lemma call_api_loop_step (cfg : Config.t) (payload : dict pyval)
  (remaining : nat) (attempt : Z) (w : World) :
  let url := Config.api_endpoint cfg ++ "/generate" in
  call_api_loop cfg payload (S remaining) attempt w
  = match attempt_result (posts w) with
    | Ok v => (Ok v, posted url payload w)
    | Raise e =>
        if isinstance e HTTPStatusError
        then if (attempt <? Config.max_retries cfg - 1)%Z
             then call_api_loop cfg payload remaining (attempt + 1)%Z
                    (slept (Config.retry_delay cfg) (posted url payload w))
             else (Raise e, posted url payload w)
        else (Raise e, posted url payload w)
    end.
Proof.
  intros url. simpl. unfold try_except. rewrite try_body_eq. fold url.
  destruct (attempt_result (posts w)) as [v | e]; [reflexivity |].
  destruct (isinstance e HTTPStatusError); [| reflexivity].
  destruct (attempt <? Config.max_retries cfg - 1)%Z; reflexivity.
Qed.

(** [k] failed requests, none of them the last allowed, leave the loop
    [k] iterations further, after [k] requests and [k] sleeps. *)
Lemma call_api_loop_retries (cfg : Config.t) (payload : dict pyval) (k : nat) :
  forall (remaining : nat) (attempt : Z) (w : World),
    (forall j, (j < k)%nat -> status_failure (posts w + j) = true) ->
    (attempt + Z.of_nat k <= Config.max_retries cfg - 1)%Z ->
    call_api_loop cfg payload (k + remaining) attempt w
    = call_api_loop cfg payload remaining (attempt + Z.of_nat k)%Z
        (retried (Config.api_endpoint cfg ++ "/generate") payload
                 (Config.retry_delay cfg) k w).
Proof.
  induction k as [| k IH]; intros remaining attempt w Hfail Hlast.
  - simpl. rewrite Z.add_0_r. reflexivity.
  - change (S k + remaining)%nat with (S (k + remaining)).
    rewrite call_api_loop_step.
    pose proof (Hfail 0%nat ltac:(lia)) as H0.
    rewrite Nat.add_0_r in H0. unfold status_failure in H0.
    destruct (attempt_result (posts w)) as [v | e]; [discriminate H0 |].
    rewrite H0.
    destruct (Z.ltb_spec attempt (Config.max_retries cfg - 1)) as [_ | Hge];
      [| lia].
    rewrite IH.
    + simpl retried. f_equal. lia.
    + intros j Hj. simpl posts.
      replace (S (posts w) + j)%nat with (posts w + S j)%nat by lia.
      apply Hfail. lia.
    + lia.
Qed.

(** A response outside 2xx is a failure the loop retries on. *)
Lemma status_failure_non_2xx (j : nat) (response : Response) :
  service env j = Ok response ->
  (status_code response < 200 \/ 299 < status_code response)%Z ->
  status_failure j = true.
Proof.
  intros Hs Hc. unfold status_failure, attempt_result. rewrite Hs.
  destruct (Z.leb_spec 200 (status_code response));
    destruct (Z.leb_spec (status_code response) 299); simpl;
    try reflexivity; lia.
Qed.

(** An exception of [client.post] itself, of another class than
    [HTTPStatusError], is not. *)
Lemma status_failure_transport (j : nat) (e : exn) :
  service env j = Raise e ->
  isinstance e HTTPStatusError = false ->
  status_failure j = false /\ attempt_result j = Raise e.
Proof.
  intros Hs Hc. unfold status_failure, attempt_result. rewrite Hs. auto.
Qed.

(** The live request: [k] retried failures, then the request that ends
    the loop, either because it is not a status failure or because it is
    the last one allowed. *)
Lemma call_api_outcome (self : VideoGenerator) (segment : Segment.t)
  (p : string) (w : World) (k : nat) :
  let cfg := config self in
  let url := Config.api_endpoint cfg ++ "/generate" in
  let payload := build_payload cfg segment p in
  (Z.of_nat k < Config.max_retries cfg)%Z ->
  (forall j, (j < k)%nat -> status_failure (posts w + j) = true) ->
  status_failure (posts w + k) = false
  \/ Z.of_nat k = (Config.max_retries cfg - 1)%Z ->
  _call_api self segment p w
  = (attempt_result (posts w + k),
     posted url payload (retried url payload (Config.retry_delay cfg) k w)).
Proof.
  intros cfg url payload Hk Hfail Hend.
  unfold _call_api. fold cfg. fold payload.
  replace (Z.to_nat (Config.max_retries cfg))
    with (k + S (Z.to_nat (Config.max_retries cfg) - k - 1))%nat by lia.
  rewrite call_api_loop_retries by (assumption || lia).
  rewrite call_api_loop_step. fold url.
  rewrite retried_posts.
  unfold status_failure in Hend.
  destruct (attempt_result (posts w + k)) as [v | e]; [reflexivity |].
  destruct (isinstance e HTTPStatusError); [| reflexivity].
  destruct Hend as [Hend | Hend]; [discriminate Hend |].
  destruct (Z.ltb_spec (0 + Z.of_nat k) (Config.max_retries cfg - 1));
    [lia | reflexivity].
Qed.

(** With no attempt allowed the loop body never runs: the call returns
    [None] without a request, and the segment counts as generated. *)
Lemma call_api_no_attempts (self : VideoGenerator) (segment : Segment.t)
  (p : string) (w : World) :
  (Config.max_retries (config self) <= 0)%Z ->
  _call_api self segment p w = (Ok PNone, w).
Proof.
  intros Hm. unfold _call_api.
  destruct (Config.max_retries (config self)) as [| m | m]; simpl.
  - reflexivity.
  - lia.
  - reflexivity.
Qed.

(** C5, as the code has it: in live mode, after [k] requests that each
    ended in a status failure and were each followed by a sleep of
    [retry_delay], the request that is not a status failure, or is the
    last of the [max_retries] allowed, ends the call: [k + 1] requests and
    [k] sleeps in all, and a result that is a success when that request
    succeeded and a failure carrying its exception otherwise.  So a
    success short-circuits, [max_retries] status failures give a failure
    result, and an exception of another class (a transport error, a body
    that is not JSON) is not retried. *)
Theorem C5_retry_policy (self : VideoGenerator) (segment : Segment.t)
  (d : dict pyval) (w : World) (k : nat) :
  client self = true ->
  Config.api_key (config self) <> "" ->
  (Z.of_nat k < Config.max_retries (config self))%Z ->
  (forall j, (j < k)%nat -> status_failure (posts w + j) = true) ->
  status_failure (posts w + k) = false
  \/ Z.of_nat k = (Config.max_retries (config self) - 1)%Z ->
  exists p r w',
    _build_enhanced_prompt segment (PDict d) = Ok p
    /\ generate_segment self segment (PDict d) w = (Ok r, w')
    /\ (let url := Config.api_endpoint (config self) ++ "/generate" in
        let payload := build_payload (config self) segment p in
        let delay := Config.retry_delay (config self) in
        log w' = (log w ++ retry_log url payload delay k
                        ++ [Posted url payload])%list)
    /\ posts w' = (posts w + k + 1)%nat
    /\ match attempt_result (posts w + k) with
       | Ok _ => GenerationResult.success r = true
       | Raise e => GenerationResult.success r = false
                    /\ GenerationResult.error_message r = Some (exn_msg e)
       end.
Proof.
  intros Hclient Hkey Hk Hfail Hend.
  destruct (build_enhanced_prompt_dict segment d) as [p Hp].
  exists p. rewrite generate_segment_cases, Hp.
  unfold dispatch. rewrite Hclient.
  apply String.eqb_neq in Hkey. rewrite Hkey. cbn [negb andb].
  rewrite (call_api_outcome self segment p w k Hk Hfail Hend).
  destruct (attempt_result (posts w + k)) as [v | e]; do 2 eexists;
    (split; [reflexivity |]); (split; [reflexivity |]);
    simpl; rewrite retried_log, retried_posts, <- app_assoc; repeat split; lia.
Qed.

(* ------------------------------------------------------------------ *)
(** ** Results and the report                                           *)

(** Reading a run backwards through a [bind]. *)
Lemma bind_ok {A B : Type} (c : M A) (k : A -> M B) (w w' : World) (b : B) :
  bind c k w = (Ok b, w') ->
  exists a w1, c w = (Ok a, w1) /\ k a w1 = (Ok b, w').
Proof.
  unfold bind. destruct (c w) as [[a | e] w1]; intros H.
  - exists a, w1. split; [reflexivity | exact H].
  - discriminate H.
Qed.

(** One step backwards: [H] says a [bind] returned; name the value [a] and
    the world [w1] in between, keep the first half as [Ha]. *)
Ltac bind_inv H a w1 Ha :=
  apply bind_ok in H; destruct H as [a [w1 [Ha H]]].

(** The invariant of a generation result: a path exactly on success, an
    error message exactly on failure. *)
Definition result_ok (r : GenerationResult.t) : Prop :=
  (GenerationResult.output_path r <> None
   <-> GenerationResult.success r = true)
  /\ (GenerationResult.error_message r <> None
      <-> GenerationResult.success r = false).

Lemma generate_segment_result_ok (self : VideoGenerator) (segment : Segment.t)
  (global_context : pyval) (w w' : World) (r : GenerationResult.t) :
  generate_segment self segment global_context w = (Ok r, w') -> result_ok r.
Proof.
  rewrite generate_segment_cases.
  destruct (_build_enhanced_prompt segment global_context) as [p | e];
    [| discriminate].
  destruct (dispatch self segment p w) as [[v | e] w1];
    intros H; inversion H; unfold result_ok; simpl;
    repeat split; intros; congruence.
Qed.

(** The loop of [run] appends one result per segment, each within the
    invariant. *)
Lemma generate_all_results_ok (generator : VideoGenerator)
  (global_context : pyval) (segments : list Segment.t) :
  forall rs paths w rs' paths' w',
    generate_all generator global_context segments rs paths w
    = (Ok (rs', paths'), w') ->
    Forall result_ok rs -> Forall result_ok rs'.
Proof.
  induction segments as [| segment rest IH]; intros rs paths w rs' paths' w' H Hrs.
  - simpl in H. unfold ret in H. inversion H. subst. exact Hrs.
  - simpl in H. bind_inv H r w1 Hr.
    apply IH in H; [exact H |].
    apply Forall_app. split; [exact Hrs |].
    constructor; [| constructor].
    exact (generate_segment_result_ok _ _ _ _ _ _ Hr).
Qed.

(** The report of any list of results. *)
Lemma generate_report_eq (rs : list GenerationResult.t) (w : World) :
  exists report,
    _generate_report rs w = (Ok report, w)
    /\ results report = map report_entry rs
    /\ total_segments report = length rs
    /\ (successful report + failed report)%nat = total_segments report.
Proof.
  eexists. split; [reflexivity |]. simpl. repeat split.
  apply filter_length.
Qed.

Lemma report_entry_ok (r : GenerationResult.t) :
  result_ok r ->
  (entry_output_path (report_entry r) <> None
   <-> entry_success (report_entry r) = true)
  /\ (entry_error (report_entry r) <> None
      <-> entry_success (report_entry r) = false).
Proof.
  intros [Hp He]. unfold report_entry. simpl. split; [| exact He].
  destruct (GenerationResult.output_path r); simpl in *.
  - rewrite <- Hp. split; intros; congruence.
  - rewrite <- Hp. split; intros; congruence.
Qed.

(** A run that reaches its report built it from the results of its
    loop. *)
Lemma run_reported (generator : VideoGenerator) (prompt_chain : PromptChain)
  (segment_ids : option (list string)) (preview concat : bool)
  (w w' : World) (report : Report) :
  run generator prompt_chain segment_ids preview concat w
  = (Ok (Reported report), w') ->
  exists rs, Forall result_ok rs
             /\ results report = map report_entry rs
             /\ total_segments report = length rs
             /\ (successful report + failed report)%nat
                = total_segments report.
Proof.
  unfold run. intros H.
  bind_inv H all_segments w1 Hload.
  bind_inv H text w2 Htimeline.
  bind_inv H u1 w3 Hwrite.
  destruct preview; [discriminate H |].
  bind_inv H generated w4 Hall. destruct generated as [rs paths].
  bind_inv H u2 w5 Hconcat.
  bind_inv H rep w6 Hrep.
  bind_inv H u3 w7 Hsave.
  bind_inv H u4 w8 Hclose.
  unfold ret in H. inversion H. subst report w'.
  exists rs. split.
  - exact (generate_all_results_ok _ _ _ _ _ _ _ _ _ Hall (Forall_nil _)).
  - destruct (generate_report_eq rs w5) as [rep' [Hrep' Hprops]].
    simpl fst in Hrep. rewrite Hrep' in Hrep. inversion Hrep. subst rep'.
    exact Hprops.
Qed.

(** C6: every result [generate_segment] returns has an output path
    exactly when it is a success and an error message exactly when it is
    a failure; and in the report of every run, the successful and the
    failed add up to the total, and every entry's output path is present
    exactly when the entry is a success. *)
Theorem C6_result_and_report_invariants :
  (forall (self : VideoGenerator) (segment : Segment.t) (global_context : pyval)
          (w w' : World) (r : GenerationResult.t),
      generate_segment self segment global_context w = (Ok r, w') ->
      result_ok r)
  /\ (forall (generator : VideoGenerator) (prompt_chain : PromptChain)
             (segment_ids : option (list string)) (preview concat : bool)
             (w w' : World) (report : Report),
         run generator prompt_chain segment_ids preview concat w
         = (Ok (Reported report), w') ->
         (successful report + failed report)%nat = total_segments report
         /\ Forall (fun e => (entry_output_path e <> None
                              <-> entry_success e = true)
                             /\ (entry_error e <> None
                                 <-> entry_success e = false))
                   (results report)).
Proof.
  split.
  - exact generate_segment_result_ok.
  - intros generator prompt_chain segment_ids preview concat w w' report H.
    apply run_reported in H.
    destruct H as [rs [Hrs [Hres [_ Hsum]]]].
    split; [exact Hsum |].
    rewrite Hres. apply Forall_map.
    eapply Forall_impl; [| exact Hrs].
    intros r. apply report_entry_ok.
Qed.

(* ------------------------------------------------------------------ *)
(** ** The preview branch of the orchestrator                           *)

(** The segments [run] keeps: all of them, or those named in a non-empty
    [segment_ids]. *)
Definition selected (segment_ids : option (list string))
  (loaded : list Segment.t) : list Segment.t :=
  match segment_ids with
  | Some (i :: ids) => filter (id_in (i :: ids)) loaded
  | _ => loaded
  end.

(** C9, as the code has it: with [preview] set, a run renders the
    timeline of the selected segments first.  When the render returns a
    text and the timeline file can be opened, the run writes that one file
    and returns the preview result: nothing is requested, nothing else is
    written, so no segment is generated, nothing is concatenated and no
    report is made.  When the render raises, the run raises with it and
    writes nothing. *)
Theorem C9_preview_run (generator : VideoGenerator) (prompt_chain : PromptChain)
  (segment_ids : option (list string)) (concat : bool) (w : World)
  (loaded : list Segment.t) :
  get_segments prompt_chain = Ok loaded ->
  let segments := selected segment_ids loaded in
  let timeline_path := PathDiv (Config.output_dir (config generator))
                               "timeline_visualization.txt" in
  run generator prompt_chain segment_ids true concat w
  = match generate segments with
    | Raise e => (Raise e, w)
    | Ok timeline =>
        match open_error env timeline_path with
        | Some e => (Raise e, w)
        | None =>
            (Ok (Preview (length segments)),
             mk_world (now w) (posts w)
                      (log w ++ [Wrote timeline_path (TextFile timeline)]))
        end
    end.
Proof.
  intros Hload segments timeline_path.
  unfold run, bind, lift. rewrite Hload.
  fold (selected segment_ids loaded). fold segments.
  destruct (generate segments) as [timeline | e]; [| reflexivity].
  fold timeline_path. unfold write_file.
  destruct (open_error env timeline_path); reflexivity.
Qed.

(* ================================================================== *)
(** * Further properties: the filter graph                              *)
(* ================================================================== *)

(** The lemmas on pure code below leave the surroundings of a run aside,
    so that no automation picks them up. *)
Ltac pure := clear md5_hex py_repr path_str env.

(** From the second stage on, a stage reads what the stage before it
    wrote. *)
Lemma filter_part_chain (i : nat) :
  in_a (filter_part (S i)) = out (filter_part i).
Proof using. pure.
  unfold filter_part. simpl (S i =? 0)%nat. cbv iota.
  destruct i as [| i]; [reflexivity |].
  simpl. replace (i - 0)%nat with i by lia.
  replace (i + 1)%nat with (S i) by lia. reflexivity.
Qed.

(** X1: for two or more paths the filter graph is a chain.  The first
    stage joins inputs 0 and 1; every later stage [i + 1] joins the output
    of stage [i] with input [i + 2], an input the command has; and the
    label the command maps to the output file is the output of the last
    stage. *)
Theorem X1_filter_graph_chained (segments : list Path) (output : Path) :
  (2 <= length segments)%nat ->
  let cmd := _generate_ffmpeg_command segments output in
  length (inputs cmd) = length segments
  /\ (exists first, nth_error (filter_complex cmd) 0 = Some first
                    /\ in_a first = "0:v" /\ in_b first = "1:v")
  /\ (forall i, (S i < length segments - 1)%nat ->
        exists a b,
          nth_error (filter_complex cmd) i = Some a
          /\ nth_error (filter_complex cmd) (S i) = Some b
          /\ in_a b = out a
          /\ in_b b = str_of_nat (i + 2) ++ ":v"
          /\ (i + 2 < length (inputs cmd))%nat)
  /\ (exists last,
        nth_error (filter_complex cmd) (length segments - 2) = Some last
        /\ final_label cmd = out last).
Proof using. pure.
  intros HN cmd. split; [reflexivity |]. split; [| split].
  - exists (filter_part 0). split; [| split; reflexivity].
    apply filter_complex_nth. lia.
  - intros i Hi. exists (filter_part i), (filter_part (S i)).
    split; [apply filter_complex_nth; lia |].
    split; [apply filter_complex_nth; lia |].
    split; [apply filter_part_chain |].
    split.
    + unfold filter_part. simpl (S i =? 0)%nat. cbv iota. simpl in_b.
      replace (S (i + 1)) with (i + 2)%nat by lia. reflexivity.
    + simpl. lia.
  - exists (filter_part (length segments - 2)).
    split; [apply filter_complex_nth; lia |].
    subst cmd. unfold _generate_ffmpeg_command. simpl final_label.
    destruct (Nat.ltb_spec 2 (length segments)) as [Hgt | Hle].
    + unfold filter_part.
      destruct (Nat.eqb_spec (length segments - 2) 0) as [H0 | _]; [lia |].
      simpl out.
      replace (length segments - 2 + 1)%nat with (length segments - 1)%nat by lia.
      reflexivity.
    + replace (length segments - 2)%nat with 0%nat by lia. reflexivity.
Qed.

(* ================================================================== *)
(** * Further properties: the motion vocabulary                         *)
(* ================================================================== *)

(** Strictly below, in the order [sorted] uses. *)
Definition str_lt (a b : string) : Prop := String.ltb a b = true.

Lemma compare_as_OT (a b : string) :
  String.compare a b = OrdersEx.String_as_OT.compare a b.
Proof using. pure.
  revert b. induction a as [| x a IH]; destruct b as [| y b]; reflexivity.
Qed.

Lemma str_lt_compare (a b : string) : str_lt a b <-> String.compare a b = Lt.
Proof using. pure.
  unfold str_lt, String.ltb.
  destruct (String.compare a b); split; intros H; congruence.
Qed.

Lemma str_lt_trans (a b c : string) : str_lt a b -> str_lt b c -> str_lt a c.
Proof using. pure.
  rewrite !str_lt_compare, !compare_as_OT. intros Hab Hbc.
  exact (StrictOrder_Transitive (R := OrdersEx.String_as_OT.lt) a b c Hab Hbc).
Qed.

Lemma str_lt_irrefl (a : string) : ~ str_lt a a.
Proof using. pure.
  rewrite str_lt_compare, compare_as_OT. intros H.
  exact (StrictOrder_Irreflexive (R := OrdersEx.String_as_OT.lt) a H).
Qed.

Lemma leb_false_lt (x y : string) : String.leb x y = false -> str_lt y x.
Proof using. pure.
  unfold String.leb. rewrite str_lt_compare, (String.compare_antisym y x).
  destruct (String.compare x y); simpl; congruence.
Qed.

Lemma leb_true_lt (x y : string) :
  String.leb x y = true -> x <> y -> str_lt x y.
Proof using. pure.
  unfold String.leb. rewrite str_lt_compare. intros H Hne.
  destruct (String.compare x y) eqn:Hc; [| reflexivity | discriminate H].
  apply String.compare_eq_iff in Hc. contradiction.
Qed.

Lemma existsb_eqb_In (x : string) (s : list string) :
  existsb (String.eqb x) s = true <-> In x s.
Proof using. pure.
  rewrite existsb_exists. split.
  - intros [y [Hy Heq]]. apply String.eqb_eq in Heq. subst y. exact Hy.
  - intros H. exists x. split; [exact H | apply String.eqb_refl].
Qed.

Lemma set_add_In (x k : string) (s : list string) :
  In k (set_add x s) <-> k = x \/ In k s.
Proof using. pure.
  unfold set_add. destruct (existsb (String.eqb x) s) eqn:E.
  - apply existsb_eqb_In in E. split; [auto |].
    intros [-> | H]; assumption.
  - simpl. split; intros [H | H]; auto.
Qed.

Lemma set_add_NoDup (x : string) (s : list string) :
  NoDup s -> NoDup (set_add x s).
Proof using. pure.
  intros Hs. unfold set_add. destruct (existsb (String.eqb x) s) eqn:E.
  - exact Hs.
  - constructor; [| exact Hs]. intros Hin.
    apply existsb_eqb_In in Hin. congruence.
Qed.

Lemma set_update_In (l s : list string) (k : string) :
  In k (set_update s l) <-> In k s \/ In k l.
Proof using. pure.
  unfold set_update. revert s.
  induction l as [| x l IH]; intros s; simpl.
  - tauto.
  - rewrite IH, set_add_In. intuition.
Qed.

Lemma set_update_NoDup (l s : list string) :
  NoDup s -> NoDup (set_update s l).
Proof using. pure.
  unfold set_update. revert s.
  induction l as [| x l IH]; intros s Hs; simpl; [exact Hs |].
  apply IH, set_add_NoDup, Hs.
Qed.

(** What is in the set after the loop over the segments. *)
Lemma all_keywords_from (segments : list Segment.t) (acc : list string)
  (k : string) :
  In k (fold_left (fun acc seg => set_update acc (Segment.motion_keywords seg))
                  segments acc)
  <-> In k acc
      \/ exists seg, In seg segments /\ In k (Segment.motion_keywords seg).
Proof using. pure.
  revert acc. induction segments as [| s segments IH]; intros acc; simpl.
  - split; [auto | intros [H | [seg [[] _]]]; exact H].
  - rewrite IH, set_update_In. split.
    + intros [[H | H] | [seg [Hs Hk]]]; eauto.
    + intros [H | [seg [[-> | Hs] Hk]]]; eauto.
Qed.

Lemma all_keywords_NoDup_from (segments : list Segment.t) (acc : list string) :
  NoDup acc ->
  NoDup (fold_left (fun acc seg => set_update acc (Segment.motion_keywords seg))
                   segments acc).
Proof using. pure.
  revert acc. induction segments as [| s segments IH]; intros acc Hacc; simpl.
  - exact Hacc.
  - apply IH, set_update_NoDup, Hacc.
Qed.

Lemma insert_sorted_In (x k : string) (l : list string) :
  In k (insert_sorted x l) <-> k = x \/ In k l.
Proof using. pure.
  induction l as [| y l IH]; simpl.
  - intuition.
  - destruct (String.leb x y); simpl; [intuition |].
    rewrite IH. intuition.
Qed.

Lemma insert_sorted_sorted (x : string) (l : list string) :
  StronglySorted str_lt l -> ~ In x l ->
  StronglySorted str_lt (insert_sorted x l).
Proof using. pure.
  induction l as [| y l IH]; intros Hl Hx; simpl.
  - constructor; constructor.
  - inversion Hl as [| y' l' Hl' Hy]; subst.
    destruct (String.leb x y) eqn:E.
    + assert (Hxy : str_lt x y).
      { apply leb_true_lt; [exact E |]. intros ->. apply Hx. left. reflexivity. }
      constructor; [exact Hl |]. constructor; [exact Hxy |].
      rewrite Forall_forall in Hy |- *. intros z Hz.
      exact (str_lt_trans _ _ _ Hxy (Hy z Hz)).
    + constructor.
      * apply IH; [exact Hl' |]. intros Hin. apply Hx. right. exact Hin.
      * rewrite Forall_forall in Hy |- *. intros z Hz.
        apply insert_sorted_In in Hz. destruct Hz as [-> | Hz].
        -- apply leb_false_lt, E.
        -- apply Hy, Hz.
Qed.

Lemma sorted_In (s : list string) (k : string) : In k (sorted s) <-> In k s.
Proof using. pure.
  unfold sorted. induction s as [| x s IH]; simpl; [tauto |].
  rewrite insert_sorted_In, IH. intuition.
Qed.

Lemma sorted_strongly (s : list string) :
  NoDup s -> StronglySorted str_lt (sorted s).
Proof using. pure.
  unfold sorted. induction s as [| x s IH]; intros Hs; simpl.
  - constructor.
  - inversion Hs; subst. apply insert_sorted_sorted; [apply IH; assumption |].
    intros Hin. apply (sorted_In s x) in Hin. contradiction.
Qed.

(** Two strictly ascending lists with the same elements are equal. *)
Lemma strictly_sorted_unique (l1 l2 : list string) :
  StronglySorted str_lt l1 -> StronglySorted str_lt l2 ->
  (forall k, In k l1 <-> In k l2) -> l1 = l2.
Proof using. pure.
  revert l2. induction l1 as [| a l1 IH]; intros l2 H1 H2 Hsame.
  - destruct l2 as [| b l2]; [reflexivity |].
    exfalso. apply (Hsame b). left. reflexivity.
  - destruct l2 as [| b l2].
    + exfalso. apply (Hsame a). left. reflexivity.
    + inversion H1 as [| a' l1' Hl1 Ha]; subst.
      inversion H2 as [| b' l2' Hl2 Hb]; subst.
      rewrite Forall_forall in Ha, Hb.
      assert (Hab : a = b).
      { destruct (proj1 (Hsame a) (or_introl eq_refl)) as [Heq | Hin];
          [congruence |].
        destruct (proj2 (Hsame b) (or_introl eq_refl)) as [Heq | Hin'];
          [congruence |].
        exfalso. apply (str_lt_irrefl a).
        exact (str_lt_trans _ _ _ (Ha b Hin') (Hb a Hin)). }
      subst b. f_equal. apply IH; [exact Hl1 | exact Hl2 |].
      intros k. split; intros Hk.
      * destruct (proj1 (Hsame k) (or_intror Hk)) as [Heq | Hin]; [| exact Hin].
        subst k. exfalso. exact (str_lt_irrefl a (Ha a Hk)).
      * destruct (proj2 (Hsame k) (or_intror Hk)) as [Heq | Hin]; [| exact Hin].
        subst k. exfalso. exact (str_lt_irrefl a (Hb a Hk)).
Qed.

Lemma vocabulary_sorted (segments : list Segment.t) :
  StronglySorted str_lt (sorted (all_keywords segments)).
Proof using. pure. apply sorted_strongly, all_keywords_NoDup_from. constructor. Qed.

Lemma vocabulary_In (segments : list Segment.t) (k : string) :
  In k (sorted (all_keywords segments))
  <-> exists seg, In seg segments /\ In k (Segment.motion_keywords seg).
Proof using. pure.
  rewrite sorted_In. unfold all_keywords.
  rewrite all_keywords_from. simpl. tauto.
Qed.

(** X2: the vocabulary the timeline prints holds exactly the keywords of
    the segments, each once, in strictly ascending order. *)
Theorem X2_vocabulary_sorted_set (segments : list Segment.t) :
  StronglySorted str_lt (sorted (all_keywords segments))
  /\ NoDup (sorted (all_keywords segments))
  /\ forall k, In k (sorted (all_keywords segments))
               <-> exists seg, In seg segments
                               /\ In k (Segment.motion_keywords seg).
Proof using. pure.
  pose proof (vocabulary_sorted segments) as Hsorted.
  split; [exact Hsorted |]. split; [| apply vocabulary_In].
  induction Hsorted as [| a l Hl IH Ha]; constructor; [| exact IH].
  intros Hin. rewrite Forall_forall in Ha.
  exact (str_lt_irrefl a (Ha a Hin)).
Qed.

(** X3: the vocabulary line does not depend on the order of the
    segments. *)
Theorem X3_vocabulary_order_independent (segments segments' : list Segment.t) :
  Permutation segments segments' ->
  String.concat ", " (sorted (all_keywords segments))
  = String.concat ", " (sorted (all_keywords segments')).
Proof using. pure.
  intros Hperm. f_equal.
  apply strictly_sorted_unique; try apply vocabulary_sorted.
  intros k. rewrite !vocabulary_In.
  split; intros [seg [Hs Hk]]; exists seg; split; try exact Hk.
  - exact (Permutation_in _ Hperm Hs).
  - exact (Permutation_in _ (Permutation_sym Hperm) Hs).
Qed.

(* ================================================================== *)
(** * Further properties: file names and render errors                  *)
(* ================================================================== *)





(** A loop that raises does so in one of its iterations. *)
Lemma res_map_raise {A B : Type} (f : A -> res B) (l : list A) (e : exn) :
  res_map f l = Raise e -> exists a, In a l /\ f a = Raise e.
Proof using. pure.
  induction l as [| a l IH]; simpl; [discriminate |].
  destruct (f a) as [b | e'] eqn:Ha; simpl.
  - destruct (res_map f l) as [bs | e'']; simpl; [discriminate |].
    intros H. inversion H. subst e''.
    destruct (IH eq_refl) as [a' [Hin Hf]]. exists a'. auto.
  - intros H. inversion H. subst e'. exists a. auto.
Qed.

Lemma segment_bar_raise (seg : Segment.t) (e : exn) :
  segment_bar seg = Raise e ->
  exn_cls e = IndexError \/ exn_cls e = ValueError.
Proof using. pure.
  unfold segment_bar, str_index, int_of_char.
  destruct (Segment.id seg) as [| c0 [| c1 r]]; simpl;
    repeat (match goal with
            | |- context [if ?b then _ else _] => destruct b; simpl
            end);
    intros H; inversion H; auto.
Qed.

(** X12: when some segment's id lacks a decimal digit in second place
    (the id is shorter than two characters, or its second character is
    no digit), the render raises an [IndexError] or a [ValueError]: the
    bars are drawn, and every id read, before any key moment or motion
    keyword is looked at, so no other segment field can change the
    outcome. *)
Theorem X12_render_error_classes (segments : list Segment.t) :
  forallb (fun seg => digit_at_1 (Segment.id seg)) segments = false ->
  exists e,
    generate segments = Raise e
    /\ (exn_cls e = IndexError \/ exn_cls e = ValueError).
Proof using. pure.
  intros H.
  rewrite <- (forallb_ext _ _ is_ok_segment_bar), <- is_ok_res_map in H.
  unfold generate.
  destruct (res_map segment_bar segments) as [bars | e] eqn:Ebars;
    [discriminate H |].
  exists e. split; [reflexivity |].
  apply res_map_raise in Ebars. destruct Ebars as [seg [_ Hseg]].
  exact (segment_bar_raise seg e Hseg).
Qed.

(* ================================================================== *)
(** * Further properties: what a generation adds to the log             *)
(* ================================================================== *)

(** [c] only appends to the log, and only events within [P], whether it
    returns or raises. *)
Definition appends {A : Type} (P : Event -> Prop) (c : M A) : Prop :=
  forall w r w', c w = (r, w') ->
                 exists l, log w' = (log w ++ l)%list /\ Forall P l.

Lemma appends_nothing {A : Type} (P : Event -> Prop) (c : M A) :
  (forall w, snd (c w) = w) -> appends P c.
Proof.
  intros Hc w r w' H. exists []. split; [| constructor].
  rewrite app_nil_r. specialize (Hc w). rewrite H in Hc. simpl in Hc.
  subst w'. reflexivity.
Qed.

Lemma appends_one {A : Type} (P : Event -> Prop) (c : M A) (e : Event) :
  P e -> (forall w, log (snd (c w)) = (log w ++ [e])%list) -> appends P c.
Proof.
  intros He Hc w r w' H. exists [e]. split; [| constructor; [exact He | constructor]].
  specialize (Hc w). rewrite H in Hc. exact Hc.
Qed.

Lemma appends_bind {A B : Type} (P : Event -> Prop) (c : M A) (k : A -> M B) :
  appends P c -> (forall a, appends P (k a)) -> appends P (bind c k).
Proof.
  intros Hc Hk w r w' H. unfold bind in H.
  destruct (c w) as [[a | e] w1] eqn:E.
  - destruct (Hc _ _ _ E) as [l1 [Hl1 HP1]].
    destruct (Hk a _ _ _ H) as [l2 [Hl2 HP2]].
    exists (l1 ++ l2)%list. split; [| apply Forall_app; auto].
    rewrite Hl2, Hl1, app_assoc. reflexivity.
  - inversion H. subst. exact (Hc _ _ _ E).
Qed.

Lemma appends_try_except {A : Type} (P : Event -> Prop) (c : M A)
  (matches : exn -> bool) (h : exn -> M A) :
  appends P c -> (forall e, appends P (h e)) ->
  appends P (try_except c matches h).
Proof.
  intros Hc Hh w r w' H. unfold try_except in H.
  destruct (c w) as [[a | e] w1] eqn:E.
  - inversion H. subst. exact (Hc _ _ _ E).
  - destruct (matches e).
    + destruct (Hc _ _ _ E) as [l1 [Hl1 HP1]].
      destruct (Hh e _ _ _ H) as [l2 [Hl2 HP2]].
      exists (l1 ++ l2)%list. split; [| apply Forall_app; auto].
      rewrite Hl2, Hl1, app_assoc. reflexivity.
    + inversion H. subst. exact (Hc _ _ _ E).
Qed.

(** The events a generation may cause: requests, sleeps, and the write of
    a simulation record. *)
Definition generation_event (e : Event) : Prop :=
  match e with
  | Posted _ _ => True
  | Slept _ => True
  | Wrote _ (MetadataFile _) => True
  | _ => False
  end.

Lemma appends_call_api_loop (cfg : Config.t) (payload : dict pyval)
  (remaining : nat) :
  forall attempt,
    appends generation_event (call_api_loop cfg payload remaining attempt).
Proof.
  induction remaining as [| remaining IH]; intros attempt; simpl.
  - apply appends_nothing. reflexivity.
  - apply appends_try_except.
    + apply appends_bind; [| intros response; apply appends_bind].
      * apply (appends_one _ _ (Posted (Config.api_endpoint cfg ++ "/generate")
                                       payload)); [exact I | reflexivity].
      * unfold raise_for_status.
        destruct ((200 <=? status_code response)
                  && (status_code response <=? 299))%Z;
          apply appends_nothing; reflexivity.
      * intros _. apply appends_nothing. reflexivity.
    + intros e. destruct (attempt <? Config.max_retries cfg - 1)%Z.
      * apply appends_bind; [| intros _; apply IH].
        apply (appends_one _ _ (Slept (Config.retry_delay cfg)));
          [exact I | reflexivity].
      * apply appends_nothing. reflexivity.
Qed.

Lemma appends_write_file (P : Event -> Prop) (path : Path) (c : FileContent) :
  P (Wrote path c) -> appends P (write_file env path c).
Proof.
  intros HP w r w' H. unfold write_file in H.
  destruct (open_error env path).
  - inversion H. subst. exists []. split; [| constructor].
    rewrite app_nil_r. reflexivity.
  - inversion H. subst. exists [Wrote path c]. split; [reflexivity |].
    constructor; [exact HP | constructor].
Qed.

Lemma appends_simulate_generation (self : VideoGenerator) (segment : Segment.t) :
  appends generation_event (_simulate_generation self segment).
Proof.
  unfold _simulate_generation.
  apply appends_bind; [| intros _; apply appends_bind].
  - apply (appends_one _ _ (Slept 0.5)); [exact I | reflexivity].
  - apply appends_nothing. reflexivity.
  - intros generated. apply appends_bind.
    + apply appends_write_file. exact I.
    + intros _. apply appends_nothing. reflexivity.
Qed.

(** X14: whatever the service answers and whether it returns or raises,
    [generate_segment] only appends to the log, and only requests, sleeps
    and writes of simulation records: it never writes the timeline, a
    manifest, a script or the report, and never closes the client. *)
Theorem X14_generate_segment_events (self : VideoGenerator)
  (segment : Segment.t) (global_context : pyval) :
  appends generation_event (generate_segment self segment global_context).
Proof.
  unfold generate_segment.
  apply appends_bind; [apply appends_nothing; reflexivity |].
  intros start_time. apply appends_bind; [apply appends_nothing; reflexivity |].
  intros enhanced_prompt. apply appends_try_except.
  - apply appends_bind.
    + destruct (client self && negb (Config.api_key (config self) =? "")).
      * apply appends_call_api_loop.
      * apply appends_simulate_generation.
    + intros result. apply appends_nothing. reflexivity.
  - intros e. apply appends_nothing. reflexivity.
Qed.

(* ------------------------------------------------------------------ *)
(** ** The loop over the segments                                       *)

Lemma appends_dispatch (self : VideoGenerator) (segment : Segment.t)
  (p : string) :
  appends generation_event (dispatch self segment p).
Proof.
  unfold dispatch.
  destruct (client self && negb (Config.api_key (config self) =? "")).
  - apply appends_call_api_loop.
  - apply appends_simulate_generation.
Qed.

(** What [generate_segment] leaves behind when it returns: a result for
    the segment, within the invariant, and generation events. *)
Lemma generate_segment_returns (self : VideoGenerator) (segment : Segment.t)
  (global_context : pyval) (w w' : World) (r : GenerationResult.t) :
  generate_segment self segment global_context w = (Ok r, w') ->
  GenerationResult.segment_id r = Segment.id segment
  /\ result_ok r
  /\ exists l, log w' = (log w ++ l)%list /\ Forall generation_event l.
Proof.
  intros H. split; [| split].
  - rewrite generate_segment_cases in H.
    destruct (_build_enhanced_prompt segment global_context) as [p | e];
      [| discriminate].
    destruct (dispatch self segment p w) as [[v | e] w1];
      inversion H; reflexivity.
  - exact (generate_segment_result_ok _ _ _ _ _ _ H).
  - rewrite generate_segment_cases in H.
    destruct (_build_enhanced_prompt segment global_context) as [p | e];
      [| discriminate].
    destruct (dispatch self segment p w) as [[v | e] w1] eqn:Hd;
      inversion H; subst; exact (appends_dispatch _ _ _ _ _ _ Hd).
Qed.

(** The output paths of the successful results, in order. *)
Definition successful_outputs (rs : list GenerationResult.t) : list Path :=
  flat_map (fun r => match GenerationResult.success r,
                           GenerationResult.output_path r with
                     | true, Some p => [p]
                     | _, _ => []
                     end) rs.

Lemma successful_outputs_app (rs rs' : list GenerationResult.t) :
  successful_outputs (rs ++ rs')
  = (successful_outputs rs ++ successful_outputs rs')%list.
Proof. unfold successful_outputs. apply flat_map_app. Qed.

(** The loop of [run], when it returns: one result per segment in list
    order, and the successful paths beside them. *)
Lemma generate_all_returns (generator : VideoGenerator)
  (global_context : pyval) (segments : list Segment.t) :
  forall rs paths w rs' paths' w',
    generate_all generator global_context segments rs paths w
    = (Ok (rs', paths'), w') ->
    exists new l,
      rs' = (rs ++ new)%list
      /\ map GenerationResult.segment_id new = map Segment.id segments
      /\ Forall result_ok new
      /\ paths' = (paths ++ successful_outputs new)%list
      /\ log w' = (log w ++ l)%list
      /\ Forall generation_event l.
Proof.
  induction segments as [| segment rest IH];
    intros rs paths w rs' paths' w' H; simpl in H.
  - unfold ret in H. inversion H. subst. exists [], [].
    rewrite !app_nil_r. repeat split; constructor.
  - bind_inv H r w1 Hr.
    apply generate_segment_returns in Hr.
    destruct Hr as [Hid [Hok [l1 [Hl1 HP1]]]].
    apply IH in H.
    destruct H as [new [l2 [Hrs [Hids [Hoks [Hpaths [Hl2 HP2]]]]]]].
    exists (r :: new), (l1 ++ l2)%list.
    split; [rewrite Hrs, <- app_assoc; reflexivity |].
    split; [simpl; rewrite Hid, Hids; reflexivity |].
    split; [constructor; assumption |].
    split.
    + rewrite Hpaths. unfold successful_outputs. simpl.
      destruct (GenerationResult.success r),
               (GenerationResult.output_path r);
        simpl; rewrite <- ?app_assoc; reflexivity.
    + split; [rewrite Hl2, Hl1, app_assoc; reflexivity |].
      apply Forall_app. auto.
Qed.

(* ------------------------------------------------------------------ *)
(** ** The shape of a reporting run                                     *)

Lemma lift_ok {A : Type} (r : res A) (w w' : World) (a : A) :
  lift r w = (Ok a, w') -> r = Ok a /\ w' = w.
Proof. unfold lift. intros H. inversion H. auto. Qed.

Lemma write_file_ok (path : Path) (c : FileContent) (w w' : World) (u : unit) :
  write_file env path c w = (Ok u, w') ->
  open_error env path = None /\ log w' = (log w ++ [Wrote path c])%list.
Proof.
  unfold write_file. destruct (open_error env path); intros H; inversion H.
  auto.
Qed.

(** What a concatenation writes at time [t]: the manifest, then the
    script. *)
Definition concat_events (paths : list Path) (final : Path) (t : Q)
  : list Event :=
  [ Wrote (PathWithSuffix final ".concat.json")
          (ManifestFile {| manifest_segments := map path_str paths;
                           manifest_output := path_str final;
                           manifest_transition := "crossfade";
                           transition_duration := 0.2;
                           created_at := t |});
    Wrote (PathWithSuffix final ".ffmpeg.sh")
          (ScriptFile (_generate_ffmpeg_command paths final)) ].

Lemma concatenate_ok (paths : list Path) (final : Path) (w w' : World)
  (b : bool) :
  concatenate paths final w = (Ok b, w') ->
  log w' = (log w ++ concat_events paths final (now w))%list.
Proof.
  unfold concatenate. intros H.
  bind_inv H created w1 Hc. unfold time_time in Hc. inversion Hc. subst.
  bind_inv H u1 w2 Hm. apply write_file_ok in Hm. destruct Hm as [_ Hm].
  bind_inv H u2 w3 Hs. apply write_file_ok in Hs. destruct Hs as [_ Hs].
  unfold ret in H. inversion H. subst.
  rewrite Hs, Hm, <- app_assoc. reflexivity.
Qed.

(** The log of a run that reaches its report: the timeline, the
    generation events, the two concatenation files when there is a
    concatenation, the report, and the closing of the client. *)
Lemma run_reported_shape (generator : VideoGenerator)
  (prompt_chain : PromptChain) (segment_ids : option (list string))
  (preview concat : bool) (w w' : World) (report : Report) :
  run generator prompt_chain segment_ids preview concat w
  = (Ok (Reported report), w') ->
  let out := Config.output_dir (config generator) in
  exists segs text rs l t,
    get_segments prompt_chain = Ok segs
    /\ generate (selected segment_ids segs) = Ok text
    /\ map GenerationResult.segment_id rs
       = map Segment.id (selected segment_ids segs)
    /\ Forall result_ok rs
    /\ results report = map report_entry rs
    /\ total_segments report = length rs
    /\ successful report = length (filter GenerationResult.success rs)
    /\ Forall generation_event l
    /\ log w'
       = (log w
          ++ Wrote (PathDiv out "timeline_visualization.txt") (TextFile text)
          :: l
          ++ (if concat && (1 <? length (successful_outputs rs))%nat
              then concat_events (successful_outputs rs)
                                 (PathDiv out "kaizen_portfolio_final.mp4") t
              else [])
          ++ Wrote (PathDiv out "generation_report.json") (ReportFile report)
          :: (if client generator then [Closed] else []))%list.
Proof.
  intros H out. unfold run in H. fold out in H.
  bind_inv H segs w1 Hload. apply lift_ok in Hload. destruct Hload as [Hload ->].
  fold (selected segment_ids segs) in H.
  bind_inv H text w2 Htext. apply lift_ok in Htext. destruct Htext as [Htext ->].
  bind_inv H u1 w3 Hwrite. apply write_file_ok in Hwrite.
  destruct Hwrite as [_ Hw3].
  destruct preview; [discriminate H |].
  bind_inv H generated w4 Hall. destruct generated as [rs paths].
  apply generate_all_returns in Hall.
  destruct Hall as [new [l [Hrs [Hids [Hoks [Hpaths [Hw4 Hl]]]]]]].
  simpl in Hrs, Hpaths. subst rs paths. simpl fst in H. simpl snd in H.
  bind_inv H u2 w5 Hconcat.
  bind_inv H rep w6 Hrep.
  unfold _generate_report, bind, time_time, ret in Hrep.
  inversion Hrep. subst rep w6. clear Hrep.
  bind_inv H u3 w7 Hsave. apply write_file_ok in Hsave.
  destruct Hsave as [_ Hw7].
  bind_inv H u4 w8 Hclose.
  unfold ret in H. inversion H. subst w8 report. clear H.
  exists segs, text, new, l, (now w4).
  repeat (split; [solve [assumption | reflexivity] |]).
  assert (Hw8 : log w' = (log w7 ++ if client generator then [Closed] else [])%list).
  { destruct (client generator).
    - unfold aclose in Hclose. inversion Hclose. reflexivity.
    - unfold ret in Hclose. inversion Hclose. rewrite app_nil_r. reflexivity. }
  assert (Hw5 : log w5
                = (log w4
                   ++ if concat && (1 <? length (successful_outputs new))%nat
                      then concat_events (successful_outputs new)
                             (PathDiv out "kaizen_portfolio_final.mp4") (now w4)
                      else [])%list).
  { destruct (concat && (1 <? length (successful_outputs new))%nat).
    - bind_inv Hconcat b w9 Hc. apply concatenate_ok in Hc.
      unfold ret in Hconcat. inversion Hconcat. subst w9. exact Hc.
    - unfold ret in Hconcat. inversion Hconcat. rewrite app_nil_r. reflexivity. }
  rewrite Hw8, Hw7, Hw5, Hw4, Hw3.
  rewrite <- !app_assoc. reflexivity.
Qed.

(** X7: the report of a run has one entry per selected segment, in the
    order of the prompt chain, whether the segment succeeded or failed. *)
Theorem X7_report_lists_selected_segments (generator : VideoGenerator)
  (prompt_chain : PromptChain) (segment_ids : option (list string))
  (preview concat : bool) (w w' : World) (report : Report) :
  run generator prompt_chain segment_ids preview concat w
  = (Ok (Reported report), w') ->
  exists segs,
    get_segments prompt_chain = Ok segs
    /\ map entry_segment_id (results report)
       = map Segment.id (selected segment_ids segs)
    /\ total_segments report = length (selected segment_ids segs).
Proof.
  intros H. apply run_reported_shape in H.
  destruct H as [segs [text [rs [l [t [Hload [_ [Hids [_ [Hres [Htot _]]]]]]]]]]].
  exists segs. split; [exact Hload |]. split.
  - rewrite Hres, map_map. exact Hids.
  - rewrite Htot, <- (length_map GenerationResult.segment_id), Hids.
    apply length_map.
Qed.

(** The manifests a log holds, in order. *)
Definition manifests (l : list Event) : list Manifest :=
  flat_map (fun e => match e with
                     | Wrote _ (ManifestFile m) => [m]
                     | _ => []
                     end) l.

(** The output paths a report lists, in order. *)
Definition report_outputs (report : Report) : list string :=
  flat_map (fun e => match entry_output_path e with
                     | Some p => [p]
                     | None => []
                     end) (results report).

Lemma manifests_generation (l : list Event) :
  Forall generation_event l -> manifests l = [].
Proof.
  induction 1 as [| e l He _ IH]; [reflexivity |].
  unfold manifests in *. simpl. rewrite IH.
  destruct e as [p [] | | |]; simpl in He; try contradiction; reflexivity.
Qed.

Lemma successful_outputs_entries (rs : list GenerationResult.t) :
  Forall result_ok rs ->
  flat_map (fun e => match entry_output_path e with
                     | Some p => [p]
                     | None => []
                     end) (map report_entry rs)
  = map path_str (successful_outputs rs)
  /\ length (successful_outputs rs)
     = length (filter GenerationResult.success rs).
Proof.
  induction 1 as [| r rs [Hp _] _ [IH1 IH2]]; [split; reflexivity |].
  unfold successful_outputs in *. simpl. rewrite IH1.
  destruct (GenerationResult.success r) eqn:Hs;
    destruct (GenerationResult.output_path r) as [p |] eqn:Ho; simpl.
  - rewrite IH2. split; reflexivity.
  - exfalso. apply (proj2 Hp); [reflexivity | reflexivity].
  - exfalso. assert (Hne : Some p <> None) by discriminate.
    apply Hp in Hne. discriminate Hne.
  - split; [reflexivity | exact IH2].
Qed.

(** X9: a run that reaches its report writes a manifest exactly when
    concatenation was asked for and at least two segments succeeded; the
    manifest then lists the output paths of the report's successful
    entries, in order, with the crossfade transition of 0.2 seconds.  With
    fewer than two successes, or without the flag, no manifest is
    written. *)
Theorem X9_concatenation_of_successes (generator : VideoGenerator)
  (prompt_chain : PromptChain) (segment_ids : option (list string))
  (preview concat : bool) (w w' : World) (report : Report) :
  run generator prompt_chain segment_ids preview concat w
  = (Ok (Reported report), w') ->
  length (report_outputs report) = successful report
  /\ exists added,
       manifests (log w') = (manifests (log w) ++ added)%list
       /\ if concat && (2 <=? successful report)%nat
          then exists m, added = [m]
                         /\ manifest_segments m = report_outputs report
                         /\ manifest_transition m = "crossfade"
                         /\ transition_duration m = 0.2%Q
          else added = [].
Proof.
  intros H. apply run_reported_shape in H. cbv zeta in H.
  destruct H as [segs [text [rs [l [t [_ [_ [_ [Hok [Hres [_ [Hsucc [Hl Hlog]]]]]]]]]]]]].
  destruct (successful_outputs_entries rs Hok) as [Hout Hlen].
  unfold report_outputs. rewrite Hres, Hout, length_map, Hlen, Hsucc.
  split; [reflexivity |].
  rewrite Hlog. unfold manifests at 1. rewrite flat_map_app. fold (manifests (log w)).
  eexists. split; [reflexivity |].
  simpl flat_map. rewrite flat_map_app. fold (manifests l).
  rewrite (manifests_generation l Hl). simpl app.
  rewrite flat_map_app.
  replace (2 <=? length (filter GenerationResult.success rs))%nat
    with (1 <? length (successful_outputs rs))%nat
    by (rewrite Hlen; reflexivity).
  destruct (concat && (1 <? length (successful_outputs rs))%nat).
  - simpl. destruct (client generator); simpl; eexists; repeat split.
  - simpl. destruct (client generator); reflexivity.
Qed.

(** X10: in the log of a run that reaches its report, the timeline is
    written first and holds the render of the selected segments, the
    report is written last and is the report returned, and the client,
    when there is one, is closed after it; nothing in between writes a
    report or a text file or closes the client. *)
Theorem X10_timeline_first_report_last (generator : VideoGenerator)
  (prompt_chain : PromptChain) (segment_ids : option (list string))
  (preview concat : bool) (w w' : World) (report : Report) :
  run generator prompt_chain segment_ids preview concat w
  = (Ok (Reported report), w') ->
  let out := Config.output_dir (config generator) in
  exists segs text middle,
    get_segments prompt_chain = Ok segs
    /\ generate (selected segment_ids segs) = Ok text
    /\ log w'
       = (log w
          ++ Wrote (PathDiv out "timeline_visualization.txt") (TextFile text)
          :: middle
          ++ Wrote (PathDiv out "generation_report.json") (ReportFile report)
          :: (if client generator then [Closed] else []))%list
    /\ Forall (fun e => match e with
                        | Closed
                        | Wrote _ (ReportFile _)
                        | Wrote _ (TextFile _) => False
                        | _ => True
                        end) middle.
Proof.
  intros H out. apply run_reported_shape in H. cbv zeta in H. fold out in H.
  destruct H as [segs [text [rs [l [t [Hload [Htext [_ [_ [_ [_ [_ [Hl Hlog]]]]]]]]]]]]].
  exists segs, text. eexists.
  split; [exact Hload |]. split; [exact Htext |].
  split; [rewrite Hlog, app_assoc; reflexivity |].
  apply Forall_app. split.
  - eapply Forall_impl; [| exact Hl].
    intros [p [] | | |]; simpl; tauto.
  - destruct (concat && (1 <? length (successful_outputs rs))%nat);
      repeat constructor.
Qed.

(** X13: when the loader raises on the prompt chain, or the render raises
    on the selected segments, the run raises the same exception and
    leaves the world as it was: nothing is written and nothing is
    requested, with or without [preview]. *)
Theorem X13_run_aborts_without_effects (generator : VideoGenerator)
  (prompt_chain : PromptChain) (segment_ids : option (list string))
  (preview concat : bool) (w : World) (e : exn) :
  get_segments prompt_chain = Raise e
  \/ (exists segs, get_segments prompt_chain = Ok segs
                   /\ generate (selected segment_ids segs) = Raise e) ->
  run generator prompt_chain segment_ids preview concat w = (Raise e, w).
Proof.
  intros [H | [segs [Hload H]]]; unfold run, bind, lift.
  - rewrite H. reflexivity.
  - rewrite Hload. fold (selected segment_ids segs). rewrite H. reflexivity.
Qed.

(* ------------------------------------------------------------------ *)
(** ** Running forwards                                                 *)

(** Running forwards through a [bind]. *)
Lemma bind_eq {A B : Type} (c : M A) (k : A -> M B) (w w1 : World) (a : A) :
  c w = (Ok a, w1) -> bind c k w = k a w1.
Proof. intros H. unfold bind. rewrite H. reflexivity. Qed.

(* ------------------------------------------------------------------ *)
(** ** Simulation and the empty retry budget                            *)


(** X11: in live mode with [max_retries] at zero or below, no request is
    ever sent, and the segment is reported as a success all the same. *)
Theorem X11_no_attempt_is_a_success (self : VideoGenerator)
  (segment : Segment.t) (d : dict pyval) (w : World) :
  client self = true ->
  Config.api_key (config self) <> "" ->
  (Config.max_retries (config self) <= 0)%Z ->
  exists r,
    generate_segment self segment (PDict d) w = (Ok r, w)
    /\ GenerationResult.success r = true
    /\ GenerationResult.output_path r
       = Some (PathDiv (Config.output_dir (config self))
                       (Segment.output_filename segment)).
Proof.
  intros Hclient Hkey Hm.
  destruct (build_enhanced_prompt_dict segment d) as [p Hp].
  rewrite generate_segment_cases, Hp.
  unfold dispatch. rewrite Hclient.
  apply String.eqb_neq in Hkey. rewrite Hkey. cbn [negb andb].
  rewrite (call_api_no_attempts self segment p w Hm).
  eexists. repeat split.
Qed.

(* ------------------------------------------------------------------ *)
(** ** The script of a run, and the empty chain                         *)

(** The encode commands a log holds, in order. *)
Definition scripts (l : list Event) : list FFmpegCommand :=
  flat_map (fun e => match e with
                     | Wrote _ (ScriptFile c) => [c]
                     | _ => []
                     end) l.

Lemma scripts_generation (l : list Event) :
  Forall generation_event l -> scripts l = [].
Proof.
  induction 1 as [| e l He _ IH]; [reflexivity |].
  unfold scripts in *. simpl. rewrite IH.
  destruct e as [p [] | | |]; simpl in He; try contradiction; reflexivity.
Qed.

(** X15: a run that reaches its report writes an encode script exactly
    when it writes a manifest: concatenation asked for and at least two
    successes.  The script then takes the output paths of the report's
    successful entries as its inputs, in order, and joins them in one
    stage fewer than there are inputs, into the final video of the output
    directory. *)
Theorem X15_script_of_successes (generator : VideoGenerator)
  (prompt_chain : PromptChain) (segment_ids : option (list string))
  (preview concat : bool) (w w' : World) (report : Report) :
  run generator prompt_chain segment_ids preview concat w
  = (Ok (Reported report), w') ->
  exists added,
    scripts (log w') = (scripts (log w) ++ added)%list
    /\ if concat && (2 <=? successful report)%nat
       then exists cmd,
              added = [cmd]
              /\ map path_str (inputs cmd) = report_outputs report
              /\ length (filter_complex cmd) = (successful report - 1)%nat
              /\ cmd_output cmd
                 = PathDiv (Config.output_dir (config generator))
                           "kaizen_portfolio_final.mp4"
       else added = [].
Proof.
  intros H. apply run_reported_shape in H. cbv zeta in H.
  destruct H as [segs [text [rs [l [t [_ [_ [_ [Hok [Hres [_ [Hsucc [Hl Hlog]]]]]]]]]]]]].
  destruct (successful_outputs_entries rs Hok) as [Hout Hlen].
  unfold report_outputs. rewrite Hres, Hout, Hsucc.
  rewrite Hlog. unfold scripts at 1. rewrite flat_map_app. fold (scripts (log w)).
  eexists. split; [reflexivity |].
  simpl flat_map. rewrite flat_map_app. fold (scripts l).
  rewrite (scripts_generation l Hl). simpl app.
  rewrite flat_map_app.
  replace (2 <=? length (filter GenerationResult.success rs))%nat
    with (1 <? length (successful_outputs rs))%nat
    by (rewrite Hlen; reflexivity).
  destruct (concat && (1 <? length (successful_outputs rs))%nat).
  - simpl. destruct (client generator); simpl; eexists;
      (split; [reflexivity |]); (split; [reflexivity |]);
      (split; [| reflexivity]);
      rewrite filter_complex_length, Hlen; reflexivity.
  - simpl. destruct (client generator); reflexivity.
Qed.

(** X16: on a prompt chain without prompts, a run without [preview]
    still writes the timeline of no segment and a report of zero
    segments, sends no request, and concatenates nothing, whatever the
    filter, the flag and the global context. *)
Theorem X16_empty_chain (generator : VideoGenerator)
  (prompt_chain : PromptChain) (segment_ids : option (list string))
  (concat : bool) (w : World) :
  let out := Config.output_dir (config generator) in
  prompts prompt_chain = None \/ prompts prompt_chain = Some [] ->
  open_error env (PathDiv out "timeline_visualization.txt") = None ->
  open_error env (PathDiv out "generation_report.json") = None ->
  exists text report w',
    generate [] = Ok text
    /\ run generator prompt_chain segment_ids false concat w
       = (Ok (Reported report), w')
    /\ total_segments report = 0%nat
    /\ successful report = 0%nat
    /\ failed report = 0%nat
    /\ results report = []
    /\ posts w' = posts w
    /\ log w'
       = (log w
          ++ [ Wrote (PathDiv out "timeline_visualization.txt") (TextFile text);
               Wrote (PathDiv out "generation_report.json")
                     (ReportFile report) ]
          ++ (if client generator then [Closed] else []))%list.
Proof.
  intros out Hempty Ht Hr.
  assert (Hload : get_segments prompt_chain = Ok []).
  { unfold get_segments. destruct Hempty as [-> | ->]; reflexivity. }
  assert (Hsel : selected segment_ids [] = []).
  { destruct segment_ids as [[| i ids] |]; reflexivity. }
  destruct (generate []) as [text | e] eqn:Htext; [| discriminate Htext].
  exists text.
  destruct (client generator) eqn:Hclient; do 2 eexists;
    (split; [reflexivity |]); unfold run;
    (erewrite bind_eq by (unfold lift; rewrite Hload; reflexivity));
    cbv beta zeta; fold (selected segment_ids []); rewrite Hsel;
    (erewrite bind_eq by (unfold lift; rewrite Htext; reflexivity));
    fold out;
    (erewrite bind_eq by (unfold write_file; rewrite Ht; reflexivity));
    cbv iota; simpl generate_all;
    (erewrite bind_eq by reflexivity);
    cbv beta zeta; simpl fst; simpl snd; simpl length;
    rewrite andb_false_r;
    (erewrite bind_eq by reflexivity);
    (erewrite bind_eq by reflexivity);
    (erewrite bind_eq by (unfold write_file; rewrite Hr; reflexivity));
    rewrite Hclient;
    (erewrite bind_eq by reflexivity);
    (split; [reflexivity |]); repeat (split; [reflexivity |]);
    unfold emit; simpl; rewrite <- ?app_assoc; reflexivity.
Qed.

End Pipeline.

(* ================================================================== *)
(** * Concrete runs                                                     *)
(* ================================================================== *)

(** Stand-ins for the library functions, enough to run the model. *)
Definition demo_md5 (s : string) : string := "d41d8cd98f00b204e9800998ecf8427e".

Definition demo_repr (v : pyval) : string := "...".

Fixpoint has_char (c : ascii) (s : string) : bool :=
  match s with
  | EmptyString => false
  | String x r => Ascii.eqb x c || has_char c r
  end.

(** A path string without the suffix of its last component: cut at the
    last dot, when no [/] follows it. *)
Fixpoint drop_suffix (s : string) : string :=
  match s with
  | EmptyString => EmptyString
  | String c r =>
      if Ascii.eqb c "." && negb (has_char "." r) && negb (has_char "/" r)
      then EmptyString
      else String c (drop_suffix r)
  end.

(** [str(path)] for file names with a stem: [with_suffix] replaces the
    suffix the name has. *)
Fixpoint demo_path_str (p : Path) : string :=
  match p with
  | PathOf s => s
  | PathDiv p name => demo_path_str p ++ "/" ++ name
  | PathWithSuffix p suffix => drop_suffix (demo_path_str p) ++ suffix
  end.

(** A service that answers 503 twice and then accepts the request. *)
Definition flaky_env : Env :=
  mk_env (fun j => if (j <? 2)%nat
                   then Ok (mk_response
                              503 "Server error '503 Service Unavailable'"
                              (Raise (mk_exn JSONDecodeError "Expecting value")))
                   else Ok (mk_response
                              200 "" (Ok (PDict [("id", PStr "job-1")]))))
         (fun _ => 1%Q)
         (fun _ => None).

(** A service that cannot be reached. *)
Definition unreachable_env : Env :=
  mk_env (fun _ => Raise (mk_exn TransportError "connection refused"))
         (fun _ => 1%Q)
         (fun _ => None).

Definition live_generator : VideoGenerator :=
  VideoGenerator_init true (Config.default "secret" (PathOf "output")).

Definition offline_generator : VideoGenerator :=
  VideoGenerator_init true (Config.default "" (PathOf "output")).

Definition boot : Segment.t :=
  Segment.mk "S1_boot" "Boot Sequence" 8 "A screen lights up" "blurry"
             [] [] [[("time", "0.0s"); ("action", "power on")]]
             "low hum" ["glow"; "fade"] [].

Definition boot_data : PromptData.t :=
  PromptData.mk (Some "S1_boot") (Some "Boot Sequence") (Some 8%Z)
                (Some "A screen lights up") None None None None None None None.

Definition intro_data : PromptData.t :=
  PromptData.mk (Some "intro") (Some "Intro") (Some 8%Z)
                (Some "A slow fade in") None None None None None None None.

Definition style_context : pyval := PDict [("style", PStr "cinematic")].

Definition world0 : World := mk_world 0 0 [].

Definition config_with_seed (s : option Z) : Config.t :=
  let c := Config.default "secret" (PathOf "output") in
  Config.mk (Config.api_endpoint c) (Config.api_key c) (Config.output_dir c)
            (Config.temp_dir c) (Config.resolution c) (Config.fps c)
            (Config.segment_duration c) (Config.quality c) (Config.format c)
            (Config.codec c) (Config.guidance_scale c)
            (Config.num_inference_steps c) s (Config.max_retries c)
            (Config.retry_delay c).

(** C3 fails in the code: the enhanced prompt is built before the [try],
    so an exception of that step is not captured.  When the prompt chain
    holds [null] under [global_context], the loader hands [None] on,
    [.get] raises [AttributeError] while the prompt is built, and the
    exception leaves [generate_segment]: no result is returned, nothing
    is written or sent. *)
Theorem C3_prompt_error_escapes :
  get_global_context (mk_chain (Some [boot_data]) (Some PNone)) = PNone
  /\ generate_segment demo_md5 demo_repr demo_path_str unreachable_env
       live_generator boot PNone world0
     = (Raise (mk_exn AttributeError
                 "'NoneType' object has no attribute 'get'"),
        world0).
Proof. split; reflexivity. Qed.

(** C2 on a chain of one segment with a key moment and two keywords. *)
Lemma C2_generate_total_on_renderable_witness :
  forallb renderable [boot] = true
  /\ exists text, generate [boot] = Ok text.
Proof.
  split; [reflexivity |].
  apply (C2_generate_total_on_renderable [boot]). reflexivity.
Defined.

(** C7 on a context that gives a style and a camera, an empty device, and
    leaves the other three fields out. *)
Lemma C7_build_enhanced_prompt_witness :
  _build_enhanced_prompt demo_repr boot
    (PDict [ ("camera", PStr "static"); ("style", PStr "cinematic");
             ("device", PStr "") ])
  = Ok ("Style: cinematic" ++ nl ++
        "Color Palette: " ++ nl ++
        "Device: " ++ nl ++
        "Lighting: " ++ nl ++
        "Camera: static" ++ nl ++
        "Quality: " ++ nl ++
        nl ++
        "A screen lights up").
Proof.
  apply (C7_build_enhanced_prompt demo_repr boot
           [ ("camera", PStr "static"); ("style", PStr "cinematic");
             ("device", PStr "") ]
           "cinematic" "" "" "" "static" "").
  - left. reflexivity.
  - right. split; reflexivity.
  - left. reflexivity.
  - right. split; reflexivity.
  - left. reflexivity.
  - right. split; reflexivity.
Defined.

(** C5 on the flaky service: two status failures, each followed by the
    delay, then the request that succeeds. *)
Lemma C5_retry_policy_witness :
  exists p r w',
    _build_enhanced_prompt demo_repr boot (PDict [("style", PStr "cinematic")])
    = Ok p
    /\ generate_segment demo_md5 demo_repr demo_path_str flaky_env
         live_generator boot (PDict [("style", PStr "cinematic")]) world0
       = (Ok r, w')
    /\ (let url := Config.api_endpoint (config live_generator) ++ "/generate" in
        let payload := build_payload (config live_generator) boot p in
        let delay := Config.retry_delay (config live_generator) in
        log w' = (log world0 ++ retry_log url payload delay 2
                             ++ [Posted url payload])%list)
    /\ posts w' = (posts world0 + 2 + 1)%nat
    /\ match attempt_result flaky_env (posts world0 + 2) with
       | Ok _ => GenerationResult.success r = true
       | Raise e => GenerationResult.success r = false
                    /\ GenerationResult.error_message r = Some (exn_msg e)
       end.
Proof.
  apply (C5_retry_policy demo_md5 demo_repr demo_path_str flaky_env
           live_generator boot [("style", PStr "cinematic")] world0 2).
  - reflexivity.
  - discriminate.
  - simpl. lia.
  - intros j Hj. destruct j as [| [| j]]; [reflexivity | reflexivity | lia].
  - left. reflexivity.
Defined.

(** C5 as stated fails on a transport error: the first of three allowed
    attempts meets a refused connection, and the generator neither sleeps
    nor sends a second request. *)
Lemma C5_transport_error_counterexample :
  service unreachable_env 0
  = Raise (mk_exn TransportError "connection refused")
  /\ (0 < Config.max_retries (config live_generator) - 1)%Z
  /\ exists r w',
       generate_segment demo_md5 demo_repr demo_path_str unreachable_env
         live_generator boot style_context world0 = (Ok r, w')
       /\ GenerationResult.success r = false
       /\ posts w' = 1%nat
       /\ forall d, ~ In (Slept d) (log w').
Proof.
  split; [reflexivity |]. split; [reflexivity |].
  do 2 eexists. split; [reflexivity |]. split; [reflexivity |].
  split; [reflexivity |].
  intros d [H | []]. discriminate H.
Qed.

(** C6 on a simulated run of one segment. *)
Lemma C6_result_and_report_invariants_witness :
  match generate_segment demo_md5 demo_repr demo_path_str unreachable_env
          live_generator boot style_context world0 with
  | (Ok r, _) => result_ok r
  | (Raise _, _) => False
  end
  /\ match run demo_md5 demo_repr demo_path_str flaky_env offline_generator
             (mk_chain (Some [boot_data]) None) None false true world0 with
     | (Ok (Reported report), _) =>
         (successful report + failed report)%nat = total_segments report
         /\ Forall (fun e => (entry_output_path e <> None
                              <-> entry_success e = true)
                             /\ (entry_error e <> None
                                 <-> entry_success e = false))
                   (results report)
     | _ => False
     end.
Proof.
  split.
  - destruct (generate_segment demo_md5 demo_repr demo_path_str unreachable_env
                live_generator boot style_context world0)
      as [[r | e] w'] eqn:E.
    + exact (proj1 (C6_result_and_report_invariants demo_md5 demo_repr
                      demo_path_str unreachable_env) _ _ _ _ _ _ E).
    + vm_compute in E. discriminate E.
  - destruct (run demo_md5 demo_repr demo_path_str flaky_env offline_generator
                (mk_chain (Some [boot_data]) None) None false true world0)
      as [[[n | report] | e] w'] eqn:E.
    + vm_compute in E. discriminate E.
    + exact (proj2 (C6_result_and_report_invariants demo_md5 demo_repr
                      demo_path_str flaky_env) _ _ _ _ _ _ _ _ E).
    + vm_compute in E. discriminate E.
Defined.

(** C8 at a seed of zero: the seed is configured, and the payload has no
    [seed] key; with a seed of 42 it has one. *)
Lemma C8_seed_zero_omitted :
  Config.seed (config_with_seed (Some 0%Z)) = Some 0%Z
  /\ dict_lookup "seed" (build_payload (config_with_seed (Some 0%Z)) boot "p")
     = None
  /\ dict_keys (build_payload (config_with_seed (Some 0%Z)) boot "p")
     = payload_keys
  /\ dict_lookup "seed" (build_payload (config_with_seed (Some 42%Z)) boot "p")
     = Some (PInt 42).
Proof. repeat split. Qed.

(** C9 on a chain of one renderable segment. *)
Lemma C9_preview_run_witness :
  exists loaded timeline,
    get_segments (mk_chain (Some [boot_data]) None) = Ok loaded
    /\ generate loaded = Ok timeline
    /\ run demo_md5 demo_repr demo_path_str flaky_env live_generator
         (mk_chain (Some [boot_data]) None) None true true world0
       = (Ok (Preview 1),
          mk_world 0 0
            [Wrote (PathDiv (PathOf "output") "timeline_visualization.txt")
                   (TextFile timeline)]).
Proof.
  do 2 eexists. split; [reflexivity |]. split; [reflexivity |].
  exact (C9_preview_run demo_md5 demo_repr demo_path_str flaky_env
           live_generator (mk_chain (Some [boot_data]) None) None true world0
           _ eq_refl).
Defined.

(** C9 as stated fails: on the non-empty list of one segment whose id is
    ["intro"], a preview run raises [ValueError] from the render; no
    timeline file is written and no preview result is returned. *)
Lemma C9_preview_raises_counterexample :
  get_segments (mk_chain (Some [intro_data]) None)
  = Ok [ Segment.mk "intro" "Intro" 8 "A slow fade in" "" [] [] [] "" [] [] ]
  /\ run demo_md5 demo_repr demo_path_str flaky_env live_generator
       (mk_chain (Some [intro_data]) None) None true false world0
     = (Raise (mk_exn ValueError
                 "invalid literal for int() with base 10: 'n'"),
        world0).
Proof. split; reflexivity. Qed.

(** C10 on a failed live request. *)
Lemma C10_result_segment_id_witness :
  match generate_segment demo_md5 demo_repr demo_path_str unreachable_env
          live_generator boot style_context world0 with
  | (Ok r, _) => GenerationResult.segment_id r = "S1_boot"
  | (Raise _, _) => False
  end.
Proof.
  destruct (generate_segment demo_md5 demo_repr demo_path_str unreachable_env
              live_generator boot style_context world0)
    as [[r | e] w'] eqn:E.
  - exact (C10_result_segment_id demo_md5 demo_repr demo_path_str
             unreachable_env live_generator boot style_context world0 w' r E).
  - vm_compute in E. discriminate E.
Defined.

(* ================================================================== *)
(** * Concrete runs for the further properties                          *)
(* ================================================================== *)

Fixpoint Path_eqb (a b : Path) : bool :=
  match a, b with
  | PathOf s, PathOf t => String.eqb s t
  | PathDiv p n, PathDiv q m => Path_eqb p q && String.eqb n m
  | PathWithSuffix p n, PathWithSuffix q m => Path_eqb p q && String.eqb n m
  | _, _ => false
  end.

Definition reveal_data : PromptData.t :=
  PromptData.mk (Some "S2_reveal") (Some "Reveal") (Some 8%Z)
                (Some "The logo appears") None None None None None
                (Some ["zoom"; "glow"]) None.

Definition outro_data : PromptData.t :=
  PromptData.mk (Some "S3_outro") (Some "Outro") (Some 8%Z)
                (Some "Fade to black") None None None None None
                (Some ["fade"]) None.

Definition three_chain : PromptChain :=
  mk_chain (Some [boot_data; reveal_data; outro_data]) None.

(** Everything can be written but the simulation record of the second
    segment. *)
Definition blocked_env : Env :=
  mk_env (fun _ => Raise (mk_exn TransportError "connection refused"))
         (fun _ => 1%Q)
         (fun p => if Path_eqb p (PathWithSuffix
                                    (PathDiv (PathOf "output")
                                             "S2_reveal_reveal.mp4") ".json")
                   then Some (mk_exn OSError "[Errno 13] Permission denied")
                   else None).

Definition reveal : Segment.t :=
  Segment.mk "S2_reveal" "Reveal" 8 "The logo appears" "" [] [] [] ""
             ["zoom"; "glow"] [].

Definition no_retry_generator : VideoGenerator :=
  let c := Config.default "secret" (PathOf "output") in
  mk_generator
    (Config.mk (Config.api_endpoint c) (Config.api_key c) (Config.output_dir c)
               (Config.temp_dir c) (Config.resolution c) (Config.fps c)
               (Config.segment_duration c) (Config.quality c) (Config.format c)
               (Config.codec c) (Config.guidance_scale c)
               (Config.num_inference_steps c) (Config.seed c) 0
               (Config.retry_delay c))
    true.

(** X1 on three paths. *)
Lemma X1_filter_graph_chained_witness :
  let cmd := _generate_ffmpeg_command
               [PathOf "a.mp4"; PathOf "b.mp4"; PathOf "c.mp4"]
               (PathOf "final.mp4") in
  length (inputs cmd) = 3%nat
  /\ (exists first, nth_error (filter_complex cmd) 0 = Some first
                    /\ in_a first = "0:v" /\ in_b first = "1:v")
  /\ (forall i, (S i < 3 - 1)%nat ->
        exists a b,
          nth_error (filter_complex cmd) i = Some a
          /\ nth_error (filter_complex cmd) (S i) = Some b
          /\ in_a b = out a
          /\ in_b b = str_of_nat (i + 2) ++ ":v"
          /\ (i + 2 < length (inputs cmd))%nat)
  /\ (exists last,
        nth_error (filter_complex cmd) (3 - 2) = Some last
        /\ final_label cmd = out last).
Proof.
  exact (X1_filter_graph_chained
           [PathOf "a.mp4"; PathOf "b.mp4"; PathOf "c.mp4"] (PathOf "final.mp4")
           (le_S _ _ (le_n 2))).
Defined.

(** X3 on two segments, swapped. *)
Lemma X3_vocabulary_order_independent_witness :
  String.concat ", " (sorted (all_keywords [boot; reveal]))
  = String.concat ", " (sorted (all_keywords [reveal; boot])).
Proof.
  apply X3_vocabulary_order_independent.
  exact (perm_swap reveal boot nil).
Defined.


(** The run the next witnesses share: three simulated segments, the
    second of which fails, with concatenation. *)
Definition blocked_run : res RunResult * World :=
  run demo_md5 demo_repr demo_path_str blocked_env offline_generator
      three_chain None false true world0.

(** X7 on the blocked run. *)
Lemma X7_report_lists_selected_segments_witness :
  exists report w',
    blocked_run = (Ok (Reported report), w')
    /\ exists segs,
         get_segments three_chain = Ok segs
         /\ map entry_segment_id (results report)
            = map Segment.id (selected None segs)
         /\ total_segments report = length (selected None segs).
Proof.
  destruct blocked_run as [[[n | report] | e] w'] eqn:E;
    [vm_compute in E; discriminate E | | vm_compute in E; discriminate E].
  exists report, w'. split; [reflexivity |].
  exact (X7_report_lists_selected_segments demo_md5 demo_repr demo_path_str
           blocked_env offline_generator three_chain None false true
           world0 w' report E).
Defined.

(** X9 on the blocked run: two successes, one manifest. *)
Lemma X9_concatenation_of_successes_witness :
  exists report w',
    blocked_run = (Ok (Reported report), w')
    /\ length (report_outputs report) = successful report
    /\ exists added,
         manifests (log w') = (manifests (log world0) ++ added)%list
         /\ if true && (2 <=? successful report)%nat
            then exists m, added = [m]
                           /\ manifest_segments m = report_outputs report
                           /\ manifest_transition m = "crossfade"
                           /\ transition_duration m = 0.2%Q
            else added = [].
Proof.
  destruct blocked_run as [[[n | report] | e] w'] eqn:E;
    [vm_compute in E; discriminate E | | vm_compute in E; discriminate E].
  exists report, w'. split; [reflexivity |].
  exact (X9_concatenation_of_successes demo_md5 demo_repr demo_path_str
           blocked_env offline_generator three_chain None false true
           world0 w' report E).
Defined.

(** X10 on the blocked run. *)
Lemma X10_timeline_first_report_last_witness :
  exists report w',
    blocked_run = (Ok (Reported report), w')
    /\ exists segs text middle,
         get_segments three_chain = Ok segs
         /\ generate (selected None segs) = Ok text
         /\ log w'
            = (log world0
               ++ Wrote (PathDiv (PathOf "output") "timeline_visualization.txt")
                        (TextFile text)
               :: middle
               ++ Wrote (PathDiv (PathOf "output") "generation_report.json")
                        (ReportFile report)
               :: (if client offline_generator then [Closed] else []))%list
         /\ Forall (fun e => match e with
                             | Closed
                             | Wrote _ (ReportFile _)
                             | Wrote _ (TextFile _) => False
                             | _ => True
                             end) middle.
Proof.
  destruct blocked_run as [[[n | report] | e] w'] eqn:E;
    [vm_compute in E; discriminate E | | vm_compute in E; discriminate E].
  exists report, w'. split; [reflexivity |].
  exact (X10_timeline_first_report_last demo_md5 demo_repr demo_path_str
           blocked_env offline_generator three_chain None false true
           world0 w' report E).
Defined.

(** X11 on a live generator with no attempt allowed and a service that
    cannot be reached. *)
Lemma X11_no_attempt_is_a_success_witness :
  exists r,
    generate_segment demo_md5 demo_repr demo_path_str unreachable_env
      no_retry_generator boot (PDict []) world0 = (Ok r, world0)
    /\ GenerationResult.success r = true
    /\ GenerationResult.output_path r
       = Some (PathDiv (Config.output_dir (config no_retry_generator))
                       (Segment.output_filename boot)).
Proof.
  apply (X11_no_attempt_is_a_success demo_md5 demo_repr demo_path_str
           unreachable_env no_retry_generator boot [] world0).
  - reflexivity.
  - discriminate.
  - simpl. lia.
Defined.

(** X12 on a segment whose id has no digit in second place and whose key
    moment lacks both keys: the id's error is the one raised. *)
Lemma X12_render_error_classes_witness :
  exists e,
    generate
      [ Segment.mk "intro" "Intro" 8 "A slow fade in" "" [] [] [ [] ] "" [] [] ]
    = Raise e
    /\ (exn_cls e = IndexError \/ exn_cls e = ValueError).
Proof.
  apply X12_render_error_classes. reflexivity.
Defined.

(** X13 on a chain whose only entry lacks its id, run live. *)
Lemma X13_run_aborts_without_effects_witness :
  run demo_md5 demo_repr demo_path_str flaky_env live_generator
      (mk_chain (Some [entry_without_id]) None) None false true world0
  = (Raise (key_error "segment_id"), world0).
Proof.
  apply X13_run_aborts_without_effects. left. reflexivity.
Defined.

(** X14 on a live request to the flaky service. *)
Lemma X14_generate_segment_events_witness :
  exists l,
    log (snd (generate_segment demo_md5 demo_repr demo_path_str flaky_env
                live_generator boot style_context world0))
    = (log world0 ++ l)%list
    /\ Forall generation_event l.
Proof.
  eapply (X14_generate_segment_events demo_md5 demo_repr demo_path_str
            flaky_env live_generator boot style_context world0).
  apply surjective_pairing.
Defined.

(** X15 on the blocked run: one script, over the two successes. *)
Lemma X15_script_of_successes_witness :
  exists report w',
    blocked_run = (Ok (Reported report), w')
    /\ exists added,
         scripts (log w') = (scripts (log world0) ++ added)%list
         /\ if true && (2 <=? successful report)%nat
            then exists cmd,
                   added = [cmd]
                   /\ map demo_path_str (inputs cmd) = report_outputs report
                   /\ length (filter_complex cmd) = (successful report - 1)%nat
                   /\ cmd_output cmd
                      = PathDiv (Config.output_dir (config offline_generator))
                                "kaizen_portfolio_final.mp4"
            else added = [].
Proof.
  destruct blocked_run as [[[n | report] | e] w'] eqn:E;
    [vm_compute in E; discriminate E | | vm_compute in E; discriminate E].
  exists report, w'. split; [reflexivity |].
  exact (X15_script_of_successes demo_md5 demo_repr demo_path_str
           blocked_env offline_generator three_chain None false true
           world0 w' report E).
Defined.

(** X16 on a chain read from no file, run live. *)
Lemma X16_empty_chain_witness :
  exists text report w',
    generate [] = Ok text
    /\ run demo_md5 demo_repr demo_path_str unreachable_env live_generator
           (mk_chain None None) None false true world0
       = (Ok (Reported report), w')
    /\ total_segments report = 0%nat
    /\ successful report = 0%nat
    /\ failed report = 0%nat
    /\ results report = []
    /\ posts w' = posts world0
    /\ log w'
       = (log world0
          ++ [ Wrote (PathDiv (PathOf "output") "timeline_visualization.txt")
                     (TextFile text);
               Wrote (PathDiv (PathOf "output") "generation_report.json")
                     (ReportFile report) ]
          ++ (if client live_generator then [Closed] else []))%list.
Proof.
  apply (X16_empty_chain demo_md5 demo_repr demo_path_str unreachable_env
           live_generator (mk_chain None None) None true world0).
  - left. reflexivity.
  - reflexivity.
  - reflexivity.
Defined.
